(** * openitool-ipcc: the carrier-bundle pipeline of [script.py]

    A shallow embedding of the pipeline stages ([download_file],
    [put_metadata], [extract_the_biggest_dmg], [decrypt_dmg_aea],
    [delete_non_bundles], [tar_and_hash_bundles]), of the per-firmware
    workflow [run] inside [bake_ipcc], and of the admission gate of [main],
    followed by the properties of the specification that were checked
    against them.

    Python functions become state-passing functions over a [world] (file
    contents, directories, the HTTP requests issued so far, the clock).
    Exceptions, [return] inside [try] and [finally] are modelled by a
    three-way control outcome.  Library code the script calls (hashlib,
    json, pathlib, zipfile, aiohttp, subprocess, glob, shutil, tarfile)
    enters through the record [Env]: every theorem holds for every
    behaviour of these collaborators.  Logging and progress bars are left
    out. *)

From Stdlib Require Import ZArith List String Ascii Bool Lia PrimFloat.
From stdpp Require Import gmap strings pretty.

Local Open Scope string_scope.
#[local] Set Warnings "-register-all,-clear-no-such-hyp".

(** ** Exceptions and results *)

(** The exception classes the script can meet.  All of them derive from
    Python's [Exception]; [ClientError] stands for [aiohttp.ClientError]
    and its subclasses, [CalledProcessError] for the one of [subprocess]. *)
Inductive exn_class :=
  | ClientError
  | JSONDecodeError
  | FileNotFoundError
  | FileExistsError
  | IsADirectoryError
  | UnicodeDecodeError
  | AttributeError
  | ValueError
  | TypeError
  | BadZipFile
  | CalledProcessError
  | OtherException.

Record exn := Exn { exn_cls : exn_class; exn_msg : string }.

#[global] Instance exn_class_eq_dec : EqDecision exn_class.
Proof. solve_decision. Defined.

(** [isinstance(e, c)] *)
Definition is_class (c : exn_class) (e : exn) : bool :=
  bool_decide (exn_cls e = c).

(** [Ok] and [Error], the two dataclasses of the script. *)
Inductive Result (T E : Type) :=
  | Ok (value : T)
  | Error (error : E).
Arguments Ok {T E} value.
Arguments Error {T E} error.

(** The dataclass [Firmwares]. *)
Record Firmwares := {
  identifier : string;
  version : string;
  buildid : string;
  sha1sum : string;
  md5sum : string;
  filesize : Z;
  url : string;
  releasedate : string;
  uploaddate : string;
  signed : bool
}.

(** The dataclass [Response] (a device and its firmwares). *)
Record Response := {
  name : string;
  resp_identifier : string;
  firmwares : list Firmwares;
  boardconfig : string;
  platform : string;
  cpid : Z;
  bdid : Z
}.

(** Values that [json.loads] produces and [json.dumps] prints.  A [dict]
    keeps its insertion order, so it is an association list. *)
Inductive pyval :=
  | PNone
  | PBool (b : bool)
  | PInt (n : Z)
  | PFloat (x : float)
  | PStr (s : string)
  | PList (l : list pyval)
  | PDict (d : list (string * pyval)).

(** [d.get(k)]: the value of the first binding of [k], [None] without one. *)
Fixpoint dict_get (d : list (string * pyval)) (k : string) : pyval :=
  match d with
  | [] => PNone
  | (k', v) :: d' => if String.eqb k' k then v else dict_get d' k
  end.

(** [d[k] = v]: overwrite in place, or append a new binding. *)
Fixpoint dict_set (d : list (string * pyval)) (k : string) (v : pyval)
  : list (string * pyval) :=
  match d with
  | [] => [(k, v)]
  | (k', v') :: d' =>
      if String.eqb k' k then (k', v) :: d' else (k', v') :: dict_set d' k v
  end.

(** [k in d]. *)
Fixpoint dict_mem (d : list (string * pyval)) (k : string) : bool :=
  match d with
  | [] => false
  | (k', _) :: d' => String.eqb k' k || dict_mem d' k
  end.

(** [bool(v)] *)
Definition truthy (v : pyval) : bool :=
  match v with
  | PNone => false
  | PBool b => b
  | PInt n => negb (n =? 0)%Z
  | PFloat x => negb (PrimFloat.eqb x 0%float)
  | PStr s => negb (String.eqb s "")
  | PList l => match l with [] => false | _ => true end
  | PDict d => match d with [] => false | _ => true end
  end.

(** ** The world *)

(** What an HTTP GET can do: raise, or answer with a status line, a
    [Content-Length] header and a body that arrives in chunks and either
    ends or breaks off with an exception. *)
Inductive content_length :=
  | CLAbsent
  | CLInt (n : Z)
  | CLInvalid (msg : string).

Record http_response := {
  status : Z;
  reason : string;
  header_content_length : content_length;
  body_chunks : list string;
  body_failure : option exn
}.

Inductive http_reply :=
  | GetRaises (e : exn)
  | GetResponds (r : http_response).

(** An [aiohttp.ClientSession]: the reply to a URL, given the requests that
    were issued before. *)
Definition ClientSession := list string -> string -> http_reply.

(** File contents are byte strings; [dirs] are the directories that exist;
    [requests] lists the URLs fetched so far, latest first; [ticks] counts
    the clock readings. *)
Record world := World {
  files : gmap string string;
  dirs : gset string;
  requests : list string;
  ticks : nat
}.

Definition set_files (f : gmap string string) (w : world) : world :=
  World f (dirs w) (requests w) (ticks w).
Definition set_dirs (d : gset string) (w : world) : world :=
  World (files w) d (requests w) (ticks w).

(** ** Control flow: values, [return] and exceptions *)

(** The outcome of a block of statements in a function that returns an [R]:
    it falls through with a value, executes [return], or raises. *)
Inductive ctl (R A : Type) :=
  | Next (a : A)
  | Return (r : R)
  | Raise (e : exn).
Arguments Next {R A} a.
Arguments Return {R A} r.
Arguments Raise {R A} e.

Definition M (R A : Type) : Type := world -> ctl R A * world.

(** The outcome of a whole call: a value or an exception. *)
Inductive res (A : Type) :=
  | Val (a : A)
  | Exc (e : exn).
Arguments Val {A} a.
Arguments Exc {A} e.

Definition Py (A : Type) : Type := world -> res A * world.

(** [(acc or []) + extra] for a list [extra]. *)
Definition or_empty_plus (acc : pyval) (extra : list pyval) : res pyval :=
  if truthy acc then
    match acc with
    | PList l => Val (PList (l ++ extra))
    | _ => Exc (Exn TypeError "unsupported operand type(s) for +")
    end
  else Val (PList extra).

Definition ret {R A} (a : A) : M R A := fun w => (Next a, w).
Definition return_ {R A} (r : R) : M R A := fun w => (Return r, w).
Definition raise {R A} (e : exn) : M R A := fun w => (Raise e, w).

Definition bind {R A B} (m : M R A) (k : A -> M R B) : M R B :=
  fun w =>
    match m w with
    | (Next a, w') => k a w'
    | (Return r, w') => (Return r, w')
    | (Raise e, w') => (Raise e, w')
    end.

Declare Scope py_scope.
Delimit Scope py_scope with py.
Notation "x <- m ;; k" := (bind m (fun x => k))
  (at level 100, m at next level, k at level 200, right associativity,
   format "'[v' x  <-  m  ;;  '/' k ']'") : py_scope.
Notation "m ;; k" := (bind m (fun _ => k))
  (at level 100, k at level 200, right associativity) : py_scope.
Local Open Scope py_scope.

(** A function definition: the body cannot fall through (its last statement
    is a [return], written out also where Python returns [None]
    implicitly). *)
Definition def_ {R} (body : M R Empty_set) : Py R :=
  fun w =>
    match body w with
    | (Next a, _) => match a with end
    | (Return r, w') => (Val r, w')
    | (Raise e, w') => (Exc e, w')
    end.

(** Calling (awaiting) a function from inside a body. *)
Definition call {R A} (f : Py A) : M R A :=
  fun w =>
    match f w with
    | (Val a, w') => (Next a, w')
    | (Exc e, w') => (Raise e, w')
    end.

(** [try: body except ...: handler]; [handler] re-raises what no clause
    matches. *)
Definition try_except {R A} (body : M R A) (handler : exn -> M R A) : M R A :=
  fun w =>
    match body w with
    | (Raise e, w') => handler e w'
    | other => other
    end.

(** [try: body finally: fin]: [fin] runs however [body] ends; what [body]
    did stands unless [fin] itself returns or raises. *)
Definition try_finally {R A} (body : M R A) (fin : M R unit) : M R A :=
  fun w =>
    match body w with
    | (c, w') =>
        match fin w' with
        | (Next _, w'') => (c, w'')
        | (Return r, w'') => (Return r, w'')
        | (Raise e, w'') => (Raise e, w'')
        end
    end.

(** [for x in l: f x]. *)
Fixpoint for_each {R A} (l : list A) (f : A -> M R unit) : M R unit :=
  match l with
  | [] => ret tt
  | x :: l' => f x ;; for_each l' f
  end.


(** ** Collaborators *)

(** An entry of [ZipFile.infolist()]. *)
Record ZipInfo := {
  filename : string;
  file_size : Z
}.

(** The libraries and tools the script relies on.  Paths are the strings
    [str(path)] of [pathlib.Path] values. *)
Record Env := {
  (* hashlib.sha1 *)
  hash_state : Type;
  sha1_new : hash_state;
  sha1_update : hash_state -> string -> hash_state;
  sha1_hexdigest : hash_state -> string;
  (* text encoding of read_text / write_text *)
  decode_text : string -> option string;
  encode_text : string -> string;
  (* json.loads (inl msg: JSONDecodeError) and json.dumps(_, indent=4) *)
  json_loads : string -> string + pyval;
  json_dumps : pyval -> string;
  (* datetime.now(UTC).isoformat() at the n-th reading of the clock, and
     (t1 - t0).total_seconds() *)
  isoformat_now : nat -> string;
  total_seconds : nat -> nat -> float;
  (* pathlib *)
  path_of_str : string -> string;
  path_join : string -> string -> string;
  path_parent : string -> string;
  path_name : string -> string;
  path_stem : string -> string;
  path_suffix : string -> string;
  path_with_suffix : string -> string -> string;
  (* os.stat(dir).st_size *)
  dir_st_size : string -> Z;
  (* zipfile: the entries of an archive (None: BadZipFile); opening an
     entry, which gives the chunks its read(8192) calls return and the
     exception that ends them, if any; ZipFile.extract *)
  zip_infolist : string -> option (list ZipInfo);
  zip_open : string -> ZipInfo -> res (list string * option exn);
  zip_extract : string -> ZipInfo -> string -> Py unit;
  (* shutil.which, subprocess.run (return code and captured stderr; it may
     raise, as when the program is missing), glob.glob *)
  shutil_which : string -> Py bool;
  subprocess_run : list string -> Py (Z * string);
  glob_glob : string -> Py (list string);
  (* shutil.move, shutil.rmtree, tarfile *)
  shutil_move : string -> string -> Py unit;
  shutil_rmtree : string -> Py unit;
  tar_add : string -> string -> string -> Py unit
}.

(** ** The file system as the script uses it *)

Section Script.

Variable env : Env.

(** [path.exists()] *)
Definition path_exists {R} (p : string) : M R bool :=
  fun w => (Next (bool_decide (is_Some (files w !! p)) || bool_decide (p ∈ dirs w)), w).

(** [open(p, "rb").read()] *)
Definition read_bytes {R} (p : string) : M R string :=
  fun w =>
    match files w !! p with
    | Some data => (Next data, w)
    | None =>
        if bool_decide (p ∈ dirs w)
        then (Raise (Exn IsADirectoryError p), w)
        else (Raise (Exn FileNotFoundError p), w)
    end.

(** [open(p, "wb")] and [open(p, "w")]: create or truncate. *)
Definition open_w {R} (p : string) : M R unit :=
  fun w =>
    match files w !! p with
    | Some _ => (Next tt, set_files (<[p := ""]> (files w)) w)
    | None =>
        if bool_decide (p ∈ dirs w) then (Raise (Exn IsADirectoryError p), w)
        else if bool_decide (path_parent env p ∈ dirs w)
        then (Next tt, set_files (<[p := ""]> (files w)) w)
        else (Raise (Exn FileNotFoundError p), w)
    end.

(** [file.write(chunk)] on the file opened at [p]. *)
Definition file_write {R} (p : string) (chunk : string) : M R unit :=
  fun w =>
    (Next tt, set_files (<[p := default "" (files w !! p) +:+ chunk]> (files w)) w).

(** [p.unlink(missing_ok=...)] *)
Definition unlink {R} (p : string) (missing_ok : bool) : M R unit :=
  fun w =>
    match files w !! p with
    | Some _ => (Next tt, set_files (delete p (files w)) w)
    | None =>
        if bool_decide (p ∈ dirs w) then (Raise (Exn IsADirectoryError p), w)
        else if missing_ok then (Next tt, w)
        else (Raise (Exn FileNotFoundError p), w)
    end.

(** [p.read_text()] *)
Definition read_text {R} (p : string) : M R string :=
  data <- read_bytes p ;;
  match decode_text env data with
  | Some text => ret text
  | None => raise (Exn UnicodeDecodeError p)
  end.

(** [p.write_text(text)] *)
Definition write_text {R} (p : string) (text : string) : M R unit :=
  open_w p ;;
  file_write p (encode_text env text).

(** [p.mkdir(exist_ok=True)] *)
Definition mkdir_exist_ok {R} (p : string) : M R unit :=
  fun w =>
    if bool_decide (p ∈ dirs w) then (Next tt, w)
    else if bool_decide (is_Some (files w !! p)) then (Raise (Exn FileExistsError p), w)
    else if bool_decide (path_parent env p ∈ dirs w)
    then (Next tt, set_dirs ({[p]} ∪ dirs w) w)
    else (Raise (Exn FileNotFoundError p), w).

(** [p.touch(exist_ok=True)] *)
Definition touch_exist_ok {R} (p : string) : M R unit :=
  fun w =>
    if bool_decide (is_Some (files w !! p)) || bool_decide (p ∈ dirs w) then (Next tt, w)
    else if bool_decide (path_parent env p ∈ dirs w)
    then (Next tt, set_files (<[p := ""]> (files w)) w)
    else (Raise (Exn FileNotFoundError p), w).

(** [p.stat().st_size] *)
Definition stat_size {R} (p : string) : M R Z :=
  fun w =>
    match files w !! p with
    | Some data => (Next (Z.of_nat (String.length data)), w)
    | None =>
        if bool_decide (p ∈ dirs w) then (Next (dir_st_size env p), w)
        else (Raise (Exn FileNotFoundError p), w)
    end.

(** [datetime.now(UTC)]: a reading of the clock. *)
Definition now {R} : M R nat :=
  fun w => (Next (ticks w), World (files w) (dirs w) (requests w) (S (ticks w))).

(** [session.get(url)]: the request is recorded, the session answers. *)
Definition session_get {R} (session : ClientSession) (u : string) : M R http_response :=
  fun w =>
    let w' := World (files w) (dirs w) (u :: requests w) (ticks w) in
    match session (requests w) u with
    | GetRaises e => (Raise e, w')
    | GetResponds r => (Next r, w')
    end.

(** ** [calculate_hash] *)

(** The chunks that successive [file.read(n)] return until the empty one. *)
Fixpoint read_chunks (fuel n : nat) (data : string) : list string :=
  match fuel with
  | O => []
  | S fuel' =>
      match data with
      | EmptyString => []
      | _ => substring 0 n data
             :: read_chunks fuel' n (substring n (String.length data - n) data)
      end
  end.

Definition calculate_hash (file_path : string) : Py string :=
  def_ (
    data <- read_bytes file_path ;;
    let hash_func :=
      fold_left (sha1_update env) (read_chunks (String.length data) 4096 data)
                (sha1_new env) in
    return_ (sha1_hexdigest env hash_func)).

(** ** [download_file] *)

Definition download_file (firmware : Firmwares) (version_folder : string)
    (session : ClientSession) : Py (Result string string) :=
  let file_path :=
    path_join env version_folder
      (identifier firmware +:+ "-" +:+ version firmware +:+ ".ipsw") in
  def_ (
    present <- path_exists file_path ;;
    (if present then
       digest <- call (calculate_hash file_path) ;;
       if String.eqb digest (sha1sum firmware) then return_ (Ok file_path)
       else (* "Detected a corrupted file, redownloading" *)
         unlink file_path false
     else ret tt) ;;
    try_finally
      (try_except
         (response <- session_get session (url firmware) ;;
          if negb (status response =? 200)%Z then
            return_ (Error ("Failed to download " +:+ identifier firmware +:+ ": "
                            +:+ pretty (status response) +:+ " " +:+ reason response))
          else
            total_size <- match header_content_length response with
                          | CLAbsent => ret 0%Z
                          | CLInt n => ret n
                          | CLInvalid msg => raise (Exn ValueError msg)
                          end ;;
            open_w file_path ;;
            for_each (body_chunks response) (fun chunk => file_write file_path chunk) ;;
            match body_failure response with
            | Some e => raise e
            | None => ret tt
            end)
         (fun e =>
            if is_class ClientError e
            then return_ (Error ("Network error: " +:+ exn_msg e))
            else return_ (Error ("Error at downloading: " +:+ exn_msg e))))
      (* remove partially downloaded file on error *)
      (unlink file_path true) ;;
    digest <- call (calculate_hash file_path) ;;
    if negb (String.eqb digest (sha1sum firmware))
    then return_ (Error ("Hash mismatch for " +:+ file_path))
    else return_ (Ok file_path)).

(** ** [put_metadata] *)

(** Read and update JSON metadata using a callback. *)
Definition put_metadata (metadata_path key : string)
    (callback : pyval -> Py pyval) : Py (Result unit string) :=
  def_ (
    try_except
      (text <- read_text metadata_path ;;
       metadata <- match json_loads env (if String.eqb text "" then "{}" else text) with
                   | inl msg => raise (Exn JSONDecodeError msg)
                   | inr v => ret v
                   end ;;
       match metadata with
       | PDict d =>
           v <- call (callback (dict_get d key)) ;;
           let d1 := dict_set d key v in
           t <- now ;;
           let d2 := dict_set d1 "updated_at" (PStr (isoformat_now env t)) in
           write_text metadata_path (json_dumps env (PDict d2))
       | _ => (* a list, string, number or None has no method get *)
           raise (Exn AttributeError "get")
       end)
      (fun e =>
         if is_class JSONDecodeError e
         then return_ (Error ("Invalid JSON: " +:+ exn_msg e))
         else raise e) ;;
    return_ (Ok tt)).

(** ** [extract_the_biggest_dmg] and [decrypt_dmg_aea] *)

(** [max(l, key=key)] keeps the first of the greatest items; on an empty
    list it raises [ValueError]. *)
Fixpoint max_from {A} (key : A -> Z) (best : A) (l : list A) : A :=
  match l with
  | [] => best
  | x :: l' => max_from key (if (key best <? key x)%Z then x else best) l'
  end.

Definition py_max {A} (key : A -> Z) (l : list A) : option A :=
  match l with
  | [] => None
  | x :: l' => Some (max_from key x l')
  end.

(** The entry [extract_the_biggest_dmg] takes for the disk image. *)
Definition biggest_dmg (infolist : list ZipInfo) : option ZipInfo :=
  py_max file_size infolist.

(** [needle in hay] on strings. *)
Fixpoint str_contains (needle hay : string) : bool :=
  String.prefix needle hay ||
  match hay with
  | EmptyString => false
  | String _ hay' => str_contains needle hay'
  end.

(** [subprocess.run(cmd, check=True)]: a non-zero return code raises
    [CalledProcessError], which carries the captured stderr. *)
Definition check_run {R} (cmd : list string) : M R unit :=
  r <- call (subprocess_run env cmd) ;;
  if (fst r =? 0)%Z then ret tt else raise (Exn CalledProcessError (snd r)).

Definition decrypt_dmg_aea (ipsw_file dmg_file output : string)
  : Py (Result unit string) :=
  def_ (
    installed <- call (shutil_which env "ipsw") ;;
    (if negb installed then
       let deb_path := path_of_str env "ipsw.deb" in
       present <- path_exists deb_path ;;
       (if negb present then
          check_run
            ["wget";
             "https://github.com/blacktop/ipsw/releases/download/v3.1.544/ipsw_3.1.544_linux_x86_64.deb";
             "--output-document"; deb_path]
        else ret tt) ;;
       check_run ["dpkg"; "-i"; deb_path]
     else ret tt) ;;
    try_except
      (check_run ["ipsw"; "extract"; "--fcs-key"; ipsw_file; "--output"; output])
      (fun e =>
         if is_class CalledProcessError e
         then return_ (Error ("Extraction failed: " +:+ exn_msg e))
         else raise e) ;;
    globbed <- call (glob_glob env (output +:+ "/**/*.pem")) ;;
    let pem_files := map (path_of_str env) globbed in
    let matching_pem :=
      find (fun pem => String.eqb (path_stem env pem) (path_name env dmg_file))
           pem_files in
    pem_file <- match matching_pem with
                | Some pem => ret pem
                | None =>
                    match pem_files with
                    | pem :: _ => ret pem
                    | [] => return_ (Error "No PEM file found.")
                    end
                end ;;
    try_except
      (check_run ["ipsw"; "fw"; "aea"; "--pem"; pem_file; dmg_file;
                  "--output"; output])
      (fun e =>
         if is_class CalledProcessError e
         then return_ (Error ("Decryption failed: " +:+ exn_msg e))
         else raise e) ;;
    (* we don't need the .dmg.aea *)
    unlink dmg_file true ;;
    (* nor the .pem folder that was created by ipsw *)
    call (shutil_rmtree env (path_parent env pem_file)) ;;
    return_ (Ok tt)).

Definition extract_the_biggest_dmg (file output : string)
  : Py (Result unit string) :=
  def_ (
    archive <- read_bytes file ;;
    infolist <- match zip_infolist env archive with
                | Some l => ret l
                | None => raise (Exn BadZipFile file)
                end ;;
    biggest <- match biggest_dmg infolist with
               | Some entry => ret entry
               | None => raise (Exn ValueError "max() arg is an empty sequence")
               end ;;
    let biggest_dmg_file_path := path_join env output (filename biggest) in
    present <- path_exists biggest_dmg_file_path ;;
    same_size <- (if present then
                    size <- stat_size biggest_dmg_file_path ;;
                    ret (size =? file_size biggest)%Z
                  else ret false) ;;
    (if negb present || negb same_size then
       source <- match zip_open env archive biggest with
                 | Val stream => ret stream
                 | Exc e => raise e
                 end ;;
       open_w biggest_dmg_file_path ;;
       for_each (fst source) (fun chunk => file_write biggest_dmg_file_path chunk) ;;
       match snd source with
       | Some e => raise e
       | None => ret tt
       end ;;
       call (zip_extract env archive biggest output)
     else (* "Skipping dmg extraction (file already exists)" *)
       ret tt) ;;
    dmg_path <-
      (if str_contains "aea" (path_suffix env biggest_dmg_file_path) then
         result <- call (decrypt_dmg_aea file biggest_dmg_file_path output) ;;
         match result with
         | Error e => return_ (Error e)
         | Ok _ =>
             (* removes the last .aea from a path *)
             ret (path_join env (path_parent env biggest_dmg_file_path)
                                (path_stem env biggest_dmg_file_path))
         end
       else ret biggest_dmg_file_path) ;;
    result <- call (subprocess_run env
                      ["7z"; "x"; dmg_path; "-o" +:+ output; "-aos"; "-bd"; "-y";
                       "System/Library/Carrier Bundles/*"]) ;;
    if negb (fst result =? 0)%Z then
      return_ (Error ("Couldn't extract " +:+ file +:+ ", error: " +:+ snd result))
    else
      unlink dmg_path true ;;
      unlink file true ;;
      return_ (Ok tt)).

(** ** Relocating and packaging the bundles *)

Definition bundles_glob (path : string) : Py (list string) :=
  glob_glob env (path +:+ "/System/Library/Carrier Bundles/**/*.bundle").

Definition delete_non_bundles (base_path : string) (bundles : list string)
  : Py (Result (list string) string) :=
  def_ (
    for_each bundles (fun bundle => call (shutil_move env bundle base_path)) ;;
    (* shutil.rmtree(..., ignore_errors=True) *)
    try_except (call (shutil_rmtree env (path_join env base_path "System")))
               (fun _ => ret tt) ;;
    return_ (Ok (map (fun bundle => path_join env base_path (path_name env bundle))
                     bundles))).

Fixpoint tar_and_hash_loop {R} (bundles : list string) (output_bundles : list pyval)
  : M R (list pyval) :=
  match bundles with
  | [] => ret output_bundles
  | bundle :: rest =>
      let bundle_tar := path_with_suffix env bundle ".tar" in
      call (tar_add env bundle_tar bundle (path_name env bundle)) ;;
      hash_value <- call (calculate_hash bundle_tar) ;;
      size <- stat_size bundle_tar ;;
      t <- now ;;
      tar_and_hash_loop rest
        (output_bundles ++
         [PDict [("bundle_name", PStr (path_stem env bundle_tar));
                 ("tar_file", PStr (path_name env bundle_tar));
                 ("sha1", PStr hash_value);
                 ("file_size", PInt size);
                 ("created_at", PStr (isoformat_now env t))]])
  end.

Definition tar_and_hash_bundles (bundles : list string)
  : Py (Result (list pyval) string) :=
  def_ (
    output_bundles <- tar_and_hash_loop bundles [] ;;
    return_ (Ok output_bundles)).

(** ** The per-firmware workflow: [run] inside [bake_ipcc] *)

(** What [run] returns: [None], or the [Error] of the stage that failed. *)
Definition run (firmware : Firmwares) (session : ClientSession)
  : Py (option (Result unit string)) :=
  def_ (
    try_except
      (start_time <- now ;;
       let base_path := path_of_str env (identifier firmware) in
       mkdir_exist_ok base_path ;;
       let version_path := path_join env base_path (version firmware) in
       mkdir_exist_ok version_path ;;
       let json_metadata_path := path_join env base_path "metadata.json" in
       touch_exist_ok json_metadata_path ;;
       ledger <- read_text json_metadata_path ;;
       (if str_contains (version firmware) ledger then return_ None else ret tt) ;;
       download_result <- call (download_file firmware version_path session) ;;
       match download_result with
       | Error e => return_ (Some (Error e))
       | Ok ipsw =>
       extract_big_result <- call (extract_the_biggest_dmg ipsw version_path) ;;
       match extract_big_result with
       | Error e => return_ (Some (Error e))
       | Ok _ =>
       globbed <- call (bundles_glob version_path) ;;
       let bundles_folders := map (path_of_str env) globbed in
       new_bundles_folders <- call (delete_non_bundles version_path bundles_folders) ;;
       match new_bundles_folders with
       | Error e => return_ (Some (Error e))
       | Ok new_folders =>
       tarred_with_hash_bundles <- call (tar_and_hash_bundles new_folders) ;;
       for_each new_folders (fun path => call (shutil_rmtree env path)) ;;
       match tarred_with_hash_bundles with
       | Error e => return_ (Some (Error e))
       | Ok tarred_bundles_value =>
       let bundles_metadata_path := path_join env version_path "bundles.json" in
       touch_exist_ok bundles_metadata_path ;;
       call (put_metadata bundles_metadata_path "bundles"
               (fun acc w => (or_empty_plus acc tarred_bundles_value, w))) ;;
       end_time <- now ;;
       let elapsed := total_seconds env start_time end_time in
       call (put_metadata json_metadata_path "fw"
               (fun acc =>
                  def_ (
                    t <- now ;;
                    match or_empty_plus acc
                            [PDict [("version", PStr (version firmware));
                                    ("buildid", PStr (buildid firmware));
                                    ("downloaded_at", PStr (isoformat_now env t));
                                    ("processing_time_sec", PFloat elapsed);
                                    ("sha1", PStr (sha1sum firmware));
                                    ("status", PStr "processed")]] with
                    | Val v => return_ v
                    | Exc e => raise e
                    end))) ;;
       ret tt
       end end end end)
      (fun e => (* logger.error("Something wen wrong, ...") *) ret tt) ;;
    return_ None).

(** ** Notions used in the statements *)

(** The digest [calculate_hash] computes for a file holding [data]. *)
Definition file_digest (data : string) : string :=
  sha1_hexdigest env
    (fold_left (sha1_update env) (read_chunks (String.length data) 4096 data)
               (sha1_new env)).

(** [{identifier}-{version}.ipsw] under the destination directory. *)
Definition destination (firmware : Firmwares) (version_folder : string) : string :=
  path_join env version_folder
    (identifier firmware +:+ "-" +:+ version firmware +:+ ".ipsw").

(** What [download_file] returns when no file is at the destination: it is
    decided by the reply of the session and by whether the destination can
    be opened for writing. *)
Definition fresh_outcome (firmware : Firmwares) (p : string) (reply : http_reply)
    (writable : bool) : res (Result string string) :=
  let on_exception e :=
    if is_class ClientError e
    then Val (Error ("Network error: " +:+ exn_msg e))
    else Val (Error ("Error at downloading: " +:+ exn_msg e)) in
  match reply with
  | GetRaises e => on_exception e
  | GetResponds response =>
      if negb (status response =? 200)%Z then
        Val (Error ("Failed to download " +:+ identifier firmware +:+ ": "
                    +:+ pretty (status response) +:+ " " +:+ reason response))
      else
        match header_content_length response with
        | CLInvalid msg => on_exception (Exn ValueError msg)
        | _ =>
            if writable then
              match body_failure response with
              | Some e => on_exception e
              | None => Exc (Exn FileNotFoundError p)
              end
            else on_exception (Exn FileNotFoundError p)
        end
  end.

(** The statements of [download_file] from the [try] on, for the
    destination [p]. *)
Definition fetch_and_verify (firmware : Firmwares) (p : string)
    (session : ClientSession) : M (Result string string) Empty_set :=
  try_finally
    (try_except
       (response <- session_get session (url firmware) ;;
        if negb (status response =? 200)%Z then
          return_ (Error ("Failed to download " +:+ identifier firmware +:+ ": "
                          +:+ pretty (status response) +:+ " " +:+ reason response))
        else
          total_size <- match header_content_length response with
                        | CLAbsent => ret 0%Z
                        | CLInt n => ret n
                        | CLInvalid msg => raise (Exn ValueError msg)
                        end ;;
          open_w p ;;
          for_each (body_chunks response) (fun chunk => file_write p chunk) ;;
          match body_failure response with
          | Some e => raise e
          | None => ret tt
          end)
       (fun e =>
          if is_class ClientError e
          then return_ (Error ("Network error: " +:+ exn_msg e))
          else return_ (Error ("Error at downloading: " +:+ exn_msg e))))
    (unlink p true) ;;
  digest <- call (calculate_hash p) ;;
  if negb (String.eqb digest (sha1sum firmware))
  then return_ (Error ("Hash mismatch for " +:+ p))
  else return_ (Ok p).

(** [needle] occurs somewhere in [hay]. *)
Definition occurs_in (needle hay : string) : Prop :=
  exists before after : string, hay = before +:+ needle +:+ after.

(** The statements of [run] from the call of [download_file] on. *)
Definition stages_from_download (firmware : Firmwares) (session : ClientSession)
    (start_time : nat) (version_path json_metadata_path : string)
  : M (option (Result unit string)) unit :=
  download_result <- call (download_file firmware version_path session) ;;
  match download_result with
  | Error e => return_ (Some (Error e))
  | Ok ipsw =>
  extract_big_result <- call (extract_the_biggest_dmg ipsw version_path) ;;
  match extract_big_result with
  | Error e => return_ (Some (Error e))
  | Ok _ =>
  globbed <- call (bundles_glob version_path) ;;
  let bundles_folders := map (path_of_str env) globbed in
  new_bundles_folders <- call (delete_non_bundles version_path bundles_folders) ;;
  match new_bundles_folders with
  | Error e => return_ (Some (Error e))
  | Ok new_folders =>
  tarred_with_hash_bundles <- call (tar_and_hash_bundles new_folders) ;;
  for_each new_folders (fun path => call (shutil_rmtree env path)) ;;
  match tarred_with_hash_bundles with
  | Error e => return_ (Some (Error e))
  | Ok tarred_bundles_value =>
  let bundles_metadata_path := path_join env version_path "bundles.json" in
  touch_exist_ok bundles_metadata_path ;;
  call (put_metadata bundles_metadata_path "bundles"
          (fun acc w => (or_empty_plus acc tarred_bundles_value, w))) ;;
  end_time <- now ;;
  let elapsed := total_seconds env start_time end_time in
  call (put_metadata json_metadata_path "fw"
          (fun acc =>
             def_ (
               t <- now ;;
               match or_empty_plus acc
                       [PDict [("version", PStr (version firmware));
                               ("buildid", PStr (buildid firmware));
                               ("downloaded_at", PStr (isoformat_now env t));
                               ("processing_time_sec", PFloat elapsed);
                               ("sha1", PStr (sha1sum firmware));
                               ("status", PStr "processed")]] with
               | Val v => return_ v
               | Exc e => raise e
               end))) ;;
  ret tt
  end end end end.

(** Every [return] that the block [m] can execute returns a value in [P]. *)
Definition returns_only {R A} (P : R -> Prop) (m : M R A) : Prop :=
  forall w r w', m w = (Return r, w') -> P r.

(** What [run] may pass to a [return]: [None], or the [Error] of a stage. *)
Definition workflow_result (r : option (Result unit string)) : Prop :=
  r = None \/ exists msg, r = Some (Error msg).

End Script.

(** * The admission gate of [main]

    [main] creates one [asyncio.Semaphore(5)] and hands it to every
    [bake_ipcc]; each task that [group.create_task(run(firmware))] starts
    wraps its whole body in [async with semaphore].  A task is [Waiting]
    until it has acquired the semaphore, [Active] inside the [async with]
    block and [Finished] after it.  The event loop interleaves the tasks in
    an order the script does not fix, hence a step relation. *)

Inductive phase :=
  | Waiting
  | Active
  | Finished.

Record task := {
  task_device : string;
  task_version : string;
  task_phase : phase
}.

Definition with_phase (ph : phase) (t : task) : task :=
  {| task_device := task_device t; task_version := task_version t;
     task_phase := ph |}.

(** The value of the semaphore and the tasks created so far. *)
Record scheduler := {
  sem_value : nat;
  tasks : list task
}.

(** [semaphore = asyncio.Semaphore(5)] *)
Definition semaphore_capacity : nat := 5.

Definition main_start : scheduler :=
  {| sem_value := semaphore_capacity; tasks := [] |}.

(** [group.create_task(run(firmware))] for a firmware of some device. *)
Definition create_task (device version : string) (s : scheduler) : scheduler :=
  {| sem_value := sem_value s;
     tasks := tasks s ++ [{| task_device := device; task_version := version;
                             task_phase := Waiting |}] |}.

(** Task [i] enters [async with semaphore]: possible only for a waiting
    task and a positive value, which it decrements. *)
Definition acquire (i : nat) (s : scheduler) : option scheduler :=
  match tasks s !! i with
  | Some t =>
      match task_phase t with
      | Waiting =>
          if (0 <? sem_value s)%nat
          then Some {| sem_value := sem_value s - 1;
                       tasks := <[i := with_phase Active t]> (tasks s) |}
          else None
      | _ => None
      end
  | None => None
  end.

(** Task [i] leaves the block, by [return] or by an exception: the value
    goes up again. *)
Definition release (i : nat) (s : scheduler) : option scheduler :=
  match tasks s !! i with
  | Some t =>
      match task_phase t with
      | Active =>
          Some {| sem_value := S (sem_value s);
                  tasks := <[i := with_phase Finished t]> (tasks s) |}
      | _ => None
      end
  | None => None
  end.

Inductive sched_event :=
  | EvCreate (device version : string)
  | EvAcquire (i : nat)
  | EvRelease (i : nat).

Definition sched_do (ev : sched_event) (s : scheduler) : option scheduler :=
  match ev with
  | EvCreate device version => Some (create_task device version s)
  | EvAcquire i => acquire i s
  | EvRelease i => release i s
  end.

Inductive sched_step : scheduler -> scheduler -> Prop :=
  | sched_step_do (ev : sched_event) (s s' : scheduler) :
      sched_do ev s = Some s' -> sched_step s s'.

Inductive sched_reachable : scheduler -> Prop :=
  | reachable_start : sched_reachable main_start
  | reachable_step (s s' : scheduler) :
      sched_reachable s -> sched_step s s' -> sched_reachable s'.

(** [bake_ipcc]: one task per firmware of the device, in order. *)
Definition bake_ipcc (response : Response) (s : scheduler) : scheduler :=
  fold_left (fun s firmware =>
               create_task (identifier firmware) (version firmware) s)
            (firmwares response) s.

(** Running a schedule from a state. *)
Fixpoint sched_run (evs : list sched_event) (s : scheduler) : option scheduler :=
  match evs with
  | [] => Some s
  | ev :: evs' =>
      match sched_do ev s with
      | Some s' => sched_run evs' s'
      | None => None
      end
  end.

Definition is_active (t : task) : bool :=
  match task_phase t with Active => true | _ => false end.

(** The workflows inside their [async with] block, of whatever device. *)
Fixpoint count_active (l : list task) : nat :=
  match l with
  | [] => 0
  | t :: l' => (if is_active t then 1 else 0) + count_active l'
  end.

Definition active_count (s : scheduler) : nat := count_active (tasks s).

(** Six firmwares of two devices are scheduled, five have entered. *)
Definition demo_schedule : list sched_event :=
  [ EvCreate "iPhone7,1" "12.0"; EvCreate "iPhone7,1" "12.1";
    EvCreate "iPhone7,1" "12.2"; EvCreate "iPhone7,2" "12.0";
    EvAcquire 0; EvAcquire 1;
    EvCreate "iPhone7,2" "12.1"; EvCreate "iPhone7,2" "12.2";
    EvAcquire 3; EvAcquire 4; EvAcquire 5 ].

Definition demo_scheduler : scheduler :=
  Eval vm_compute in
    match sched_run demo_schedule main_start with
    | Some s => s
    | None => main_start
    end.

(** * A concrete setting

    A small instance of the collaborators, used to run the definitions on
    explicit inputs: the digest of a file is its content, text is encoded
    as it is, paths are joined with a slash, and the JSON library knows a
    handful of documents. *)

Definition quote : string := String (ascii_of_nat 34) EmptyString.

Fixpoint demo_json_dumps (v : pyval) : string :=
  match v with
  | PNone => "null"
  | PBool true => "true"
  | PBool false => "false"
  | PInt n => pretty n
  | PFloat _ => "0.0"
  | PStr s => quote +:+ s +:+ quote
  | PList l =>
      "[" +:+ (fix items (l : list pyval) : string :=
                 match l with
                 | [] => ""
                 | x :: l' =>
                     match l' with
                     | [] => demo_json_dumps x
                     | _ => demo_json_dumps x +:+ ", " +:+ items l'
                     end
                 end) l +:+ "]"
  | PDict d =>
      "{" +:+ (fix items (d : list (string * pyval)) : string :=
                 match d with
                 | [] => ""
                 | (k, x) :: d' =>
                     match d' with
                     | [] => quote +:+ k +:+ quote +:+ ": " +:+ demo_json_dumps x
                     | _ => quote +:+ k +:+ quote +:+ ": " +:+ demo_json_dumps x
                            +:+ ", " +:+ items d'
                     end
                 end) d +:+ "}"
  end.

(** The documents the demo JSON library can read back. *)
Definition demo_documents : list pyval :=
  [ PDict [];
    PList [];
    PDict [("fw", PList [PStr "11.4"]); ("owner", PStr "lab")] ].

Definition demo_json_loads (text : string) : string + pyval :=
  match find (fun v => String.eqb (demo_json_dumps v) text) demo_documents with
  | Some v => inr v
  | None => inl "Expecting value"
  end.

(** The part of [s] before and after the last [sep]. *)
Fixpoint split_last (sep : ascii) (s : string) : option (string * string) :=
  match s with
  | EmptyString => None
  | String c s' =>
      match split_last sep s' with
      | Some (before, after) => Some (String c before, after)
      | None => if Ascii.eqb c sep then Some (EmptyString, s') else None
      end
  end.

Definition demo_parent (p : string) : string :=
  match split_last "/" p with Some (dir, _) => dir | None => "." end.
Definition demo_name (p : string) : string :=
  match split_last "/" p with Some (_, base) => base | None => p end.
Definition demo_stem (p : string) : string :=
  match split_last "." (demo_name p) with
  | Some (String c stem, _) => String c stem
  | _ => demo_name p
  end.
Definition demo_suffix (p : string) : string :=
  match split_last "." (demo_name p) with
  | Some (String _ _, ext) => "." +:+ ext
  | _ => ""
  end.

Definition demo_env : Env := {|
  hash_state := string;
  sha1_new := "";
  sha1_update := String.append;
  sha1_hexdigest := fun state => state;
  decode_text := Some;
  encode_text := fun text => text;
  json_loads := demo_json_loads;
  json_dumps := demo_json_dumps;
  isoformat_now := fun n => "T" +:+ pretty n;
  total_seconds := fun _ _ => 0%float;
  path_of_str := fun s => s;
  path_join := fun dir base => dir +:+ "/" +:+ base;
  path_parent := demo_parent;
  path_name := demo_name;
  path_stem := demo_stem;
  path_suffix := demo_suffix;
  path_with_suffix := fun p suffix =>
    demo_parent p +:+ "/" +:+ demo_stem p +:+ suffix;
  dir_st_size := fun _ => 4096%Z;
  zip_infolist := fun archive =>
    if String.prefix "PK" archive then Some [] else None;
  zip_open := fun _ _ => Val ([], None);
  zip_extract := fun _ _ _ w => (Val tt, w);
  shutil_which := fun _ w => (Val true, w);
  subprocess_run := fun _ w => (Val (0%Z, ""), w);
  glob_glob := fun _ w => (Val [], w);
  shutil_move := fun _ _ w => (Val tt, w);
  shutil_rmtree := fun _ w => (Val tt, w);
  tar_add := fun _ _ _ w => (Val tt, w)
|}.

Definition demo_firmware (expected_sha1 : string) : Firmwares := {|
  identifier := "iPhone7,1";
  version := "12.0";
  buildid := "16A366";
  sha1sum := expected_sha1;
  md5sum := "";
  filesize := 6%Z;
  url := "https://updates.example/iPhone7,1_12.0.ipsw";
  releasedate := "2018-09-17T17:00:00";
  uploaddate := "2018-09-12T19:00:00";
  signed := false
|}.

(** A server that answers every GET with 200 and the six bytes [PKdata],
    sent in two chunks. *)
Definition demo_session : ClientSession := fun _ _ =>
  GetResponds {| status := 200; reason := "OK";
                 header_content_length := CLInt 6;
                 body_chunks := ["PK"; "data"];
                 body_failure := None |}.

Definition demo_dirs : gset string :=
  {[ "."; "iPhone7,1"; "iPhone7,1/12.0" ]}.

(** A world with the given files, the device and version directories, and
    nothing requested yet. *)
Definition demo_world (fs : gmap string string) : world :=
  World fs demo_dirs [] 0.

Definition demo_ipsw : string := "iPhone7,1/12.0/iPhone7,1-12.0.ipsw".
Definition demo_ledger : string := "iPhone7,1/metadata.json".

(** [lambda acc: (acc or []) + ["12.0"]] *)
Definition demo_callback (acc : pyval) : Py pyval :=
  fun w => (or_empty_plus acc [PStr "12.0"], w).

(** * Further notions

    The rest of the script: the device list, what [fetch_and_bake] and
    [main] schedule, and notions used to state what the stages leave
    behind. *)

Definition IPHONES_PRODUCT_CODES : list string :=
  [ "7,1"; "7,2"; "8,1"; "8,2"; "8,4"; "9,1"; "9,2"; "9,3"; "9,4";
    "10,1"; "10,2"; "10,4"; "10,4"; "10,5"; "10,6";
    "11,2"; "11,4"; "11,6"; "11,8";
    "12,1"; "12,3"; "12,5"; "12,8";
    "13,1"; "13,2"; "13,3"; "13,4";
    "14,2"; "14,3"; "14,4"; "14,5"; "14,6" ].

(** [model = f"iPhone{iphone_code}"] *)
Definition device_model (iphone_code : string) : string :=
  "iPhone" +:+ iphone_code.

(** [fetch_and_bake], as far as scheduling goes: [catalog] gives the parsed
    answer of the catalog for a model when the status is 200, and [None]
    otherwise (the failure is logged).  A request or an answer that raises
    ends [main] and is left out. *)
Definition fetch_and_bake (catalog : string -> option Response)
    (iphone_code : string) (s : scheduler) : scheduler :=
  match catalog (device_model iphone_code) with
  | Some parsed_data => bake_ipcc parsed_data s
  | None => s
  end.

(** The task [bake_ipcc] creates for a firmware. *)
Definition waiting_task_of (firmware : Firmwares) : task :=
  {| task_device := identifier firmware; task_version := version firmware;
     task_phase := Waiting |}.

(** The tasks [main] has created when its loop over the device list ends. *)
Definition main_creates (catalog : string -> option Response) : scheduler :=
  fold_left (fun s iphone_code => fetch_and_bake catalog iphone_code s)
            IPHONES_PRODUCT_CODES main_start.

(** The tasks created for a (device, version) pair. *)
Fixpoint count_tasks (device version : string) (l : list task) : nat :=
  match l with
  | [] => 0
  | t :: l' =>
      (if String.eqb (task_device t) device && String.eqb (task_version t) version
       then 1 else 0) + count_tasks device version l'
  end.

(** [b"".join(chunks)] *)
Definition join_chunks (chunks : list string) : string :=
  fold_right String.append "" chunks.

(** Every [return] that the block [m] can execute returns a value and
    leaves a world that satisfy [Q]. *)
Definition returns_with {R A} (Q : R -> world -> Prop) (m : M R A) : Prop :=
  forall w r w', m w = (Return r, w') -> Q r w'.

(** The record [tar_and_hash_bundles] makes for a bundle whose tar file
    holds [data], with the clock read at [t]. *)
Definition bundle_record (env : Env) (bundle data : string) (t : nat) : pyval :=
  let bundle_tar := path_with_suffix env bundle ".tar" in
  PDict [("bundle_name", PStr (path_stem env bundle_tar));
         ("tar_file", PStr (path_name env bundle_tar));
         ("sha1", PStr (file_digest env data));
         ("file_size", PInt (Z.of_nat (String.length data)));
         ("created_at", PStr (isoformat_now env t))].

(** Packaging the bundles one after the other, from a world to a world:
    [tarfile] writes the tar file of the bundle, the record is made from
    what that file then holds and from the clock, which is read once. *)
Inductive packaged (env : Env) : list string -> world -> list pyval -> world -> Prop :=
  | packaged_nil (w : world) : packaged env [] w [] w
  | packaged_cons (bundle : string) (rest : list string) (w w1 w' : world)
      (data : string) (records : list pyval) :
      tar_add env (path_with_suffix env bundle ".tar") bundle (path_name env bundle) w
      = (Val tt, w1) ->
      files w1 !! path_with_suffix env bundle ".tar" = Some data ->
      packaged env rest (World (files w1) (dirs w1) (requests w1) (S (ticks w1)))
               records w' ->
      packaged env (bundle :: rest) w
               (bundle_record env bundle data (ticks w1) :: records) w'.

(** The [try]/[except] block of [download_file]: the request and the
    transfer of the body to the destination [p]. *)
Definition request_and_stream (env : Env) (firmware : Firmwares) (p : string)
    (session : ClientSession) : M (Result string string) unit :=
  try_except
    (response <- session_get session (url firmware) ;;
     if negb (status response =? 200)%Z then
       return_ (Error ("Failed to download " +:+ identifier firmware +:+ ": "
                       +:+ pretty (status response) +:+ " " +:+ reason response))
     else
       total_size <- match header_content_length response with
                     | CLAbsent => ret 0%Z
                     | CLInt n => ret n
                     | CLInvalid msg => raise (Exn ValueError msg)
                     end ;;
       open_w env p ;;
       for_each (body_chunks response) (fun chunk => file_write p chunk) ;;
       match body_failure response with
       | Some e => raise e
       | None => ret tt
       end)
    (fun e =>
       if is_class ClientError e
       then return_ (Error ("Network error: " +:+ exn_msg e))
       else return_ (Error ("Error at downloading: " +:+ exn_msg e))).

(** The command line of 7z for a disk image. *)
Definition seven_zip_command (dmg_path output : string) : list string :=
  ["7z"; "x"; dmg_path; "-o" +:+ output; "-aos"; "-bd"; "-y";
   "System/Library/Carrier Bundles/*"].

(** The statements of [extract_the_biggest_dmg] that follow the selection,
    for the entry [biggest] taken from the archive. *)
Definition extract_selected (env : Env) (file output archive : string)
    (biggest : ZipInfo) : M (Result unit string) Empty_set :=
  let biggest_dmg_file_path := path_join env output (filename biggest) in
  present <- path_exists biggest_dmg_file_path ;;
  same_size <- (if present then
                  size <- stat_size env biggest_dmg_file_path ;;
                  ret (size =? file_size biggest)%Z
                else ret false) ;;
  (if negb present || negb same_size then
     source <- match zip_open env archive biggest with
               | Val stream => ret stream
               | Exc e => raise e
               end ;;
     open_w env biggest_dmg_file_path ;;
     for_each (fst source) (fun chunk => file_write biggest_dmg_file_path chunk) ;;
     match snd source with
     | Some e => raise e
     | None => ret tt
     end ;;
     call (zip_extract env archive biggest output)
   else ret tt) ;;
  dmg_path <-
    (if str_contains "aea" (path_suffix env biggest_dmg_file_path) then
       result <- call (decrypt_dmg_aea env file biggest_dmg_file_path output) ;;
       match result with
       | Error e => return_ (Error e)
       | Ok _ =>
           ret (path_join env (path_parent env biggest_dmg_file_path)
                              (path_stem env biggest_dmg_file_path))
       end
     else ret biggest_dmg_file_path) ;;
  result <- call (subprocess_run env (seven_zip_command dmg_path output)) ;;
  if negb (fst result =? 0)%Z then
    return_ (Error ("Couldn't extract " +:+ file +:+ ", error: " +:+ snd result))
  else
    unlink dmg_path true ;;
    unlink file true ;;
    return_ (Ok tt).

(** What [run] leaves of the file system and the clock when it has created
    the directories and the ledger and is about to read the ledger. *)
Definition after_setup (env : Env) (firmware : Firmwares) (w : world) : world :=
  let base_path := path_of_str env (identifier firmware) in
  let version_path := path_join env base_path (version firmware) in
  let json_metadata_path := path_join env base_path "metadata.json" in
  World (match files w !! json_metadata_path with
         | Some _ => files w
         | None => <[json_metadata_path := ""]> (files w)
         end)
        ({[version_path]} ∪ ({[base_path]} ∪ dirs w))
        (requests w) (S (ticks w)).

(** The directories and the ledger of a workflow exist or can be created:
    what [mkdir(exist_ok=True)] and [touch(exist_ok=True)] need. *)
Definition setup_possible (env : Env) (firmware : Firmwares) (w : world) : Prop :=
  let base_path := path_of_str env (identifier firmware) in
  let version_path := path_join env base_path (version firmware) in
  let json_metadata_path := path_join env base_path "metadata.json" in
  (base_path ∈ dirs w
   \/ (files w !! base_path = None /\ path_parent env base_path ∈ dirs w))
  /\ (version_path ∈ {[base_path]} ∪ dirs w
      \/ (files w !! version_path = None
          /\ path_parent env version_path ∈ {[base_path]} ∪ dirs w))
  /\ (is_Some (files w !! json_metadata_path)
      \/ ((json_metadata_path ∉ {[version_path]} ∪ ({[base_path]} ∪ dirs w))
          /\ (path_parent env json_metadata_path
              ∈ {[version_path]} ∪ ({[base_path]} ∪ dirs w)))).

(** Text that is plain ASCII. *)
Fixpoint all_ascii (s : string) : bool :=
  match s with
  | EmptyString => true
  | String c s' => (nat_of_ascii c <? 128)%nat && all_ascii s'
  end.

(** The demo collaborators with a decoder that takes ASCII only. *)
Definition demo_env_ascii : Env := {|
  hash_state := hash_state demo_env;
  sha1_new := sha1_new demo_env;
  sha1_update := sha1_update demo_env;
  sha1_hexdigest := sha1_hexdigest demo_env;
  decode_text := fun data => if all_ascii data then Some data else None;
  encode_text := encode_text demo_env;
  json_loads := json_loads demo_env;
  json_dumps := json_dumps demo_env;
  isoformat_now := isoformat_now demo_env;
  total_seconds := total_seconds demo_env;
  path_of_str := path_of_str demo_env;
  path_join := path_join demo_env;
  path_parent := path_parent demo_env;
  path_name := path_name demo_env;
  path_stem := path_stem demo_env;
  path_suffix := path_suffix demo_env;
  path_with_suffix := path_with_suffix demo_env;
  dir_st_size := dir_st_size demo_env;
  zip_infolist := zip_infolist demo_env;
  zip_open := zip_open demo_env;
  zip_extract := zip_extract demo_env;
  shutil_which := shutil_which demo_env;
  subprocess_run := subprocess_run demo_env;
  glob_glob := glob_glob demo_env;
  shutil_move := shutil_move demo_env;
  shutil_rmtree := shutil_rmtree demo_env;
  tar_add := tar_add demo_env
|}.

(** One byte, 0xFF, which no ASCII or UTF-8 text contains. *)
Definition demo_invalid_bytes : string := String (ascii_of_nat 255) EmptyString.

(** The container of the specification: entries of 10, 4096 and 512 bytes. *)
Definition demo_infolist : list ZipInfo :=
  [ {| filename := "BuildManifest.plist"; file_size := 10 |};
    {| filename := "048-12345.dmg"; file_size := 4096 |};
    {| filename := "kernelcache"; file_size := 512 |} ].

(** The demo collaborators with a zip library that finds these three
    entries in every archive that starts with [PK] and gives the name of an
    entry for its content, and with a 7z that fails. *)
Definition demo_env_three : Env := {|
  hash_state := hash_state demo_env;
  sha1_new := sha1_new demo_env;
  sha1_update := sha1_update demo_env;
  sha1_hexdigest := sha1_hexdigest demo_env;
  decode_text := decode_text demo_env;
  encode_text := encode_text demo_env;
  json_loads := json_loads demo_env;
  json_dumps := json_dumps demo_env;
  isoformat_now := isoformat_now demo_env;
  total_seconds := total_seconds demo_env;
  path_of_str := path_of_str demo_env;
  path_join := path_join demo_env;
  path_parent := path_parent demo_env;
  path_name := path_name demo_env;
  path_stem := path_stem demo_env;
  path_suffix := path_suffix demo_env;
  path_with_suffix := path_with_suffix demo_env;
  dir_st_size := dir_st_size demo_env;
  zip_infolist := fun archive =>
    if String.prefix "PK" archive then Some demo_infolist else None;
  zip_open := fun _ entry => Val ([filename entry], None);
  zip_extract := zip_extract demo_env;
  shutil_which := shutil_which demo_env;
  subprocess_run := fun _ w => (Val (2%Z, "ERROR"), w);
  glob_glob := glob_glob demo_env;
  shutil_move := shutil_move demo_env;
  shutil_rmtree := shutil_rmtree demo_env;
  tar_add := tar_add demo_env
|}.

(** A world before the first run: no ledger, no device directory. *)
Definition demo_first_run : world := World ∅ {[ "." ]} [] 0.

(** A server that answers every GET with status 404. *)
Definition demo_session_404 : ClientSession := fun _ _ =>
  GetResponds {| status := 404; reason := "Not Found";
                 header_content_length := CLAbsent;
                 body_chunks := [];
                 body_failure := None |}.

(** A catalog that knows one device, with two firmwares. *)
Definition demo_catalog (model : string) : option Response :=
  if String.eqb model "iPhone10,4" then
    Some {| name := "iPhone 8"; resp_identifier := "iPhone10,4";
            firmwares := [ {| identifier := "iPhone10,4"; version := "16.7";
                              buildid := "20H19"; sha1sum := ""; md5sum := "";
                              filesize := 0; url := ""; releasedate := "";
                              uploaddate := ""; signed := true |};
                           {| identifier := "iPhone10,4"; version := "16.6";
                              buildid := "20G75"; sha1sum := ""; md5sum := "";
                              filesize := 0; url := ""; releasedate := "";
                              uploaddate := ""; signed := false |} ];
            boardconfig := "D201AP"; platform := "t8015";
            cpid := 32789; bdid := 2 |}
  else None.

(** The demo collaborators with a zip library that finds one entry,
    [048-1.dmg] of three bytes, in every archive that starts with [PK]. *)
Definition demo_env_zip : Env := {|
  hash_state := hash_state demo_env;
  sha1_new := sha1_new demo_env;
  sha1_update := sha1_update demo_env;
  sha1_hexdigest := sha1_hexdigest demo_env;
  decode_text := decode_text demo_env;
  encode_text := encode_text demo_env;
  json_loads := json_loads demo_env;
  json_dumps := json_dumps demo_env;
  isoformat_now := isoformat_now demo_env;
  total_seconds := total_seconds demo_env;
  path_of_str := path_of_str demo_env;
  path_join := path_join demo_env;
  path_parent := path_parent demo_env;
  path_name := path_name demo_env;
  path_stem := path_stem demo_env;
  path_suffix := path_suffix demo_env;
  path_with_suffix := path_with_suffix demo_env;
  dir_st_size := dir_st_size demo_env;
  zip_infolist := fun archive =>
    if String.prefix "PK" archive
    then Some [ {| filename := "048-1.dmg"; file_size := 3 |} ]
    else None;
  zip_open := fun _ _ => Val (["dmg"], None);
  zip_extract := zip_extract demo_env;
  shutil_which := shutil_which demo_env;
  subprocess_run := subprocess_run demo_env;
  glob_glob := glob_glob demo_env;
  shutil_move := shutil_move demo_env;
  shutil_rmtree := shutil_rmtree demo_env;
  tar_add := tar_add demo_env
|}.


(** * Properties *)

Section Properties.

Variable env : Env.

Lemma append_String (c : ascii) (s t : string) :
  String c s +:+ t = String c (s +:+ t).
Proof. reflexivity. Qed.

Lemma string_append_assoc (a b c : string) : (a +:+ b) +:+ c = a +:+ (b +:+ c).
Proof.
  induction a as [|x a IH]; [reflexivity|].
  rewrite !append_String. now rewrite IH.
Qed.

Lemma string_append_nil_r (a : string) : a +:+ "" = a.
Proof.
  induction a as [|x a IH]; [reflexivity|].
  rewrite append_String. now rewrite IH.
Qed.

Lemma fold_left_append_join (chunks : list string) (acc : string) :
  fold_left String.append chunks acc = acc +:+ join_chunks chunks.
Proof.
  revert acc. induction chunks as [|c chunks IH]; intros acc; simpl.
  - now rewrite string_append_nil_r.
  - rewrite IH. unfold join_chunks at 2. simpl fold_right.
    fold (join_chunks chunks). apply string_append_assoc.
Qed.

Lemma calculate_hash_file (p : string) (w : world) (data : string) :
  files w !! p = Some data ->
  calculate_hash env p w = (Val (file_digest env data), w).
Proof.
  intros Hp. unfold calculate_hash, def_, bind, read_bytes, return_.
  rewrite Hp. reflexivity.
Qed.

Lemma calculate_hash_missing (p : string) (w : world) :
  files w !! p = None -> p ∉ dirs w ->
  calculate_hash env p w = (Exc (Exn FileNotFoundError p), w).
Proof.
  intros Hp Hd. unfold calculate_hash, def_, bind, read_bytes, return_.
  rewrite Hp. rewrite bool_decide_eq_false_2 by assumption. reflexivity.
Qed.

(** ** The metadata ledger *)

Lemma dict_get_set_eq (d : list (string * pyval)) (k : string) (v : pyval) :
  dict_get (dict_set d k v) k = v.
Proof.
  induction d as [|[k' v'] d IH]; simpl.
  - now rewrite String.eqb_refl.
  - destruct (String.eqb k' k) eqn:E; simpl; rewrite E; auto.
Qed.

Lemma dict_get_set_ne (d : list (string * pyval)) (k k' : string) (v : pyval) :
  k' <> k -> dict_get (dict_set d k v) k' = dict_get d k'.
Proof.
  intros Hne. induction d as [|[k0 v0] d IH]; simpl.
  - destruct (String.eqb k k') eqn:E; [apply String.eqb_eq in E; congruence | reflexivity].
  - destruct (String.eqb k0 k) eqn:E; simpl.
    + apply String.eqb_eq in E. subst k0.
      destruct (String.eqb k k') eqn:E'; [apply String.eqb_eq in E'; congruence | reflexivity].
    + now rewrite IH.
Qed.

Lemma dict_mem_set_ne (d : list (string * pyval)) (k k' : string) (v : pyval) :
  k' <> k -> dict_mem (dict_set d k v) k' = dict_mem d k'.
Proof.
  intros Hne. induction d as [|[k0 v0] d IH]; simpl.
  - destruct (String.eqb k k') eqn:E; [apply String.eqb_eq in E; congruence | reflexivity].
  - destruct (String.eqb k0 k) eqn:E; simpl.
    + reflexivity.
    + now rewrite IH.
Qed.

(** What [put_metadata] does until it has parsed the ledger. *)
Lemma read_text_file {R} (p : string) (w : world) (data text : string) :
  files w !! p = Some data -> decode_text env data = Some text ->
  read_text (R:=R) env p w = (Next text, w).
Proof.
  intros Hp Hd. unfold read_text, bind, read_bytes, ret. now rewrite Hp, Hd.
Qed.


(** The world after [write_text] on an existing file. *)
Lemma write_text_existing {R} (p text : string) (w : world) :
  is_Some (files w !! p) ->
  write_text (R:=R) env p text w
  = (Next tt, set_files (<[p := encode_text env text]> (files w)) w).
Proof.
  intros [old Hp]. unfold write_text, bind, open_w, file_write. rewrite Hp. simpl.
  rewrite lookup_insert_eq. simpl. unfold set_files. simpl.
  now rewrite insert_insert_eq.
Qed.

(** C4 (amended): on an existing empty ledger [put_metadata] works on the
    empty object: it calls the callback on [None], stores the result under
    [key], stamps [updated_at] (which wins if [key] is [updated_at]) and
    writes the object back, returning [Ok].  A ledger that does not exist
    is not read as the empty object: the call raises [FileNotFoundError]
    and the world stays as it was. *)
Theorem put_metadata_empty_file
    (path key : string) (callback : pyval -> Py pyval) (w w1 : world)
    (data : string) (v : pyval) :
  files w !! path = Some data ->
  decode_text env data = Some "" ->
  json_loads env "{}" = inr (PDict []) ->
  callback PNone w = (Val v, w1) ->
  is_Some (files w1 !! path) ->
  let stamp := PStr (isoformat_now env (ticks w1)) in
  let written := dict_set (dict_set [] key v) "updated_at" stamp in
  put_metadata env path key callback w
  = (Val (Ok tt),
     World (<[path := encode_text env (json_dumps env (PDict written))]> (files w1))
           (dirs w1) (requests w1) (S (ticks w1)))
  /\ dict_get written "updated_at" = stamp
  /\ (key <> "updated_at" -> dict_get written key = v)
  /\ (forall k, k <> key -> k <> "updated_at" -> dict_mem written k = false)
  /\ (forall w0 : world,
        files w0 !! path = None -> path ∉ dirs w0 ->
        put_metadata env path key callback w0
        = (Exc (Exn FileNotFoundError path), w0)).
Proof.
  intros Hp Hd Hjson Hcb Hp1 stamp written. split; [|split; [|split; [|split]]].
  5:{ intros w0 Hmissing Hnodir.
      unfold put_metadata, def_, bind, try_except, read_text, bind, read_bytes.
      rewrite Hmissing, (bool_decide_eq_false_2 _ Hnodir). reflexivity. }
  - unfold put_metadata, def_, bind, try_except.
    rewrite (read_text_file _ _ _ _ Hp Hd). simpl. rewrite Hjson.
    unfold ret, call. simpl. rewrite Hcb. unfold now. simpl.
    rewrite write_text_existing by exact Hp1. reflexivity.
  - apply dict_get_set_eq.
  - intros Hne. unfold written. rewrite dict_get_set_ne by exact Hne.
    apply dict_get_set_eq.
  - intros k Hk Hk'. unfold written.
    rewrite dict_mem_set_ne by exact Hk'. simpl.
    destruct (String.eqb key k) eqn:E; [apply String.eqb_eq in E; congruence|reflexivity].
Qed.

(** C10: whenever [put_metadata] returns [Ok] on a ledger holding a JSON
    object, the object it writes back agrees with the old one on every key
    other than [key] and [updated_at]. *)
Theorem put_metadata_frame
    (path key : string) (callback : pyval -> Py pyval) (w w' : world)
    (data text : string) (old : list (string * pyval)) :
  put_metadata env path key callback w = (Val (Ok tt), w') ->
  files w !! path = Some data ->
  decode_text env data = Some text ->
  json_loads env (if String.eqb text "" then "{}" else text) = inr (PDict old) ->
  exists new : list (string * pyval),
    files w' !! path = Some (encode_text env (json_dumps env (PDict new)))
    /\ forall k, k <> key -> k <> "updated_at" ->
         dict_get new k = dict_get old k /\ dict_mem new k = dict_mem old k.
Proof.
  intros Hrun Hp Hd Hjson.
  unfold put_metadata, def_, bind, try_except in Hrun.
  rewrite (read_text_file _ _ _ _ Hp Hd) in Hrun. rewrite Hjson in Hrun.
  unfold ret, call in Hrun. simpl in Hrun.
  destruct (callback (dict_get old key) w) as [[v|e] w1] eqn:Hcb.
  - unfold now in Hrun. simpl in Hrun.
    set (new := dict_set (dict_set old key v) "updated_at"
                         (PStr (isoformat_now env (ticks w1)))) in *.
    exists new. split.
    + unfold write_text, bind, open_w, file_write in Hrun. simpl in Hrun.
      destruct (files w1 !! path) eqn:Hp1; simpl in Hrun.
      * inversion Hrun; subst w'. simpl.
        rewrite lookup_insert_eq. simpl. now rewrite lookup_insert_eq.
      * destruct (bool_decide (path ∈ dirs w1)); simpl in Hrun.
        { discriminate. }
        destruct (bool_decide (path_parent env path ∈ dirs w1)); simpl in Hrun.
        { inversion Hrun; subst w'. simpl.
          rewrite lookup_insert_eq. simpl. now rewrite lookup_insert_eq. }
        discriminate.
    + intros k Hk Hk'. unfold new.
      rewrite dict_get_set_ne, dict_mem_set_ne by exact Hk'.
      rewrite dict_get_set_ne, dict_mem_set_ne by exact Hk. auto.
  - destruct (is_class JSONDecodeError e); simpl in Hrun; discriminate.
Qed.

(** ** The download manager *)

(** Streaming the body appends every chunk to the open file. *)
Lemma stream_to_file {R} (p : string) (chunks : list string) (w : world) (cur : string) :
  files w !! p = Some cur ->
  for_each (R:=R) chunks (fun chunk => file_write p chunk) w
  = (Next tt, set_files (<[p := fold_left String.append chunks cur]> (files w)) w).
Proof.
  revert w cur. induction chunks as [|c chunks IH]; intros w cur Hp; simpl.
  - unfold ret, set_files. rewrite insert_id by exact Hp. now destruct w.
  - unfold bind, file_write. rewrite Hp. simpl.
    rewrite (IH _ (cur +:+ c)) by (simpl; apply lookup_insert_eq).
    unfold set_files. simpl. now rewrite insert_insert_eq.
Qed.

Lemma download_file_unfold
    (firmware : Firmwares) (version_folder : string) (session : ClientSession) :
  let p := destination env firmware version_folder in
  download_file env firmware version_folder session
  = def_ (present <- path_exists p ;;
          (if present then
             digest <- call (calculate_hash env p) ;;
             if String.eqb digest (sha1sum firmware) then return_ (Ok p)
             else unlink p false
           else ret tt) ;;
          fetch_and_verify env firmware p session).
Proof. reflexivity. Qed.

Lemma fetch_and_verify_fresh
    (firmware : Firmwares) (p : string) (session : ClientSession) (w : world) :
  files w !! p = None -> p ∉ dirs w ->
  def_ (fetch_and_verify env firmware p session) w
  = (fresh_outcome firmware p (session (requests w) (url firmware))
                   (bool_decide (path_parent env p ∈ dirs w)),
     World (files w) (dirs w) (url firmware :: requests w) (ticks w)).
Proof.
  intros Hp Hd.
  unfold fetch_and_verify, def_, bind.
  unfold try_finally, try_except, session_get, fresh_outcome.
  destruct (session (requests w) (url firmware)) as [e|response].
  - (* session.get raises *)
    destruct (is_class ClientError e); unfold return_, unlink; simpl;
      rewrite Hp, (bool_decide_eq_false_2 _ Hd); reflexivity.
  - destruct (negb (status response =? 200)%Z).
    + unfold return_, unlink; simpl.
      rewrite Hp, (bool_decide_eq_false_2 _ Hd); reflexivity.
    + destruct (header_content_length response) as [|n|msg].
      3:{ unfold raise, return_, unlink; simpl.
          rewrite Hp, (bool_decide_eq_false_2 _ Hd); reflexivity. }
      all: unfold ret at 1; unfold open_w; simpl;
        rewrite Hp, (bool_decide_eq_false_2 _ Hd);
        destruct (bool_decide (path_parent env p ∈ dirs w)).
      all: try (unfold return_, unlink; simpl;
                rewrite Hp, (bool_decide_eq_false_2 _ Hd); reflexivity).
      all: rewrite (stream_to_file _ _ _ "") by (simpl; apply lookup_insert_eq);
        simpl; rewrite insert_insert_eq.
      all: destruct (body_failure response) as [e|].
      all: unfold raise, return_, ret, unlink, call, set_files; simpl.
      all: try match goal with
               | |- context [is_class ClientError ?x] => destruct (is_class ClientError x)
               end.
      all: simpl; rewrite lookup_insert_eq; simpl;
        rewrite delete_insert_eq, (delete_id _ _ Hp).
      all: try reflexivity.
      all: rewrite calculate_hash_missing by assumption; reflexivity.
Qed.

Lemma def_bind_next {R A} (m : M R A) (k : A -> M R Empty_set) (w w' : world) (a : A) :
  m w = (Next a, w') -> def_ (bind m k) w = def_ (k a) w'.
Proof. intros H. unfold def_, bind. now rewrite H. Qed.

Lemma download_file_fresh
    (firmware : Firmwares) (version_folder : string) (session : ClientSession)
    (w : world) :
  let p := destination env firmware version_folder in
  files w !! p = None -> p ∉ dirs w ->
  download_file env firmware version_folder session w
  = (fresh_outcome firmware p (session (requests w) (url firmware))
                   (bool_decide (path_parent env p ∈ dirs w)),
     World (files w) (dirs w) (url firmware :: requests w) (ticks w)).
Proof.
  intros p Hp Hd. rewrite download_file_unfold. fold p.
  rewrite (def_bind_next _ _ w w false).
  - rewrite (def_bind_next _ _ w w tt) by reflexivity.
    now apply fetch_and_verify_fresh.
  - unfold path_exists. rewrite Hp, (bool_decide_eq_false_2 _ Hd).
    rewrite bool_decide_eq_false_2; [reflexivity|]. intros [x Hx]; discriminate.
Qed.

(** With a file at the destination env whose digest is not the expected one,
    the file is unlinked and the download starts from there. *)
Lemma download_file_corrupt
    (firmware : Firmwares) (version_folder : string) (session : ClientSession)
    (w : world) (data : string) :
  let p := destination env firmware version_folder in
  files w !! p = Some data ->
  file_digest env data <> sha1sum firmware ->
  download_file env firmware version_folder session w
  = def_ (fetch_and_verify env firmware p session) (set_files (delete p (files w)) w).
Proof.
  intros p Hp Hdigest. rewrite download_file_unfold. fold p.
  rewrite (def_bind_next _ _ w w true).
  - rewrite (def_bind_next _ _ w (set_files (delete p (files w)) w) tt);
      [reflexivity|].
    unfold bind, call.
    rewrite (calculate_hash_file _ _ _ Hp).
    destruct (String.eqb (file_digest env data) (sha1sum firmware)) eqn:E.
    + apply String.eqb_eq in E. contradiction.
    + unfold unlink. now rewrite Hp.
  - unfold path_exists. rewrite Hp.
    rewrite bool_decide_eq_true_2 by eauto. reflexivity.
Qed.

(** With a file at the destination whose digest is the expected one,
    nothing is done. *)
Lemma download_file_valid
    (firmware : Firmwares) (version_folder : string) (session : ClientSession)
    (w : world) (data : string) :
  let p := destination env firmware version_folder in
  files w !! p = Some data ->
  file_digest env data = sha1sum firmware ->
  download_file env firmware version_folder session w = (Val (Ok p), w).
Proof.
  intros p Hp Hdigest. rewrite download_file_unfold. fold p.
  rewrite (def_bind_next _ _ w w true).
  - unfold def_, bind, call. rewrite (calculate_hash_file _ _ _ Hp).
    rewrite Hdigest, String.eqb_refl. reflexivity.
  - unfold path_exists. rewrite Hp.
    rewrite bool_decide_eq_true_2 by eauto. reflexivity.
Qed.

(** The transfer of a complete body: the destination, which did not exist,
    holds the chunks of the body, one after the other. *)
Lemma request_and_stream_complete
    (firmware : Firmwares) (p : string) (session : ClientSession) (w : world)
    (response : http_response) :
  files w !! p = None -> p ∉ dirs w ->
  path_parent env p ∈ dirs w ->
  session (requests w) (url firmware) = GetResponds response ->
  status response = 200%Z ->
  (forall msg, header_content_length response <> CLInvalid msg) ->
  body_failure response = None ->
  request_and_stream env firmware p session w
  = (Next tt,
     World (<[p := join_chunks (body_chunks response)]> (files w)) (dirs w)
           (url firmware :: requests w) (ticks w)).
Proof.
  intros Hp Hd Hparent Hreply Hstatus Hheader Hbody.
  unfold request_and_stream, try_except, bind, session_get.
  rewrite Hreply, Hstatus. simpl negb. cbv iota.
  destruct (header_content_length response) as [|n|msg];
    [| |now destruct (Hheader msg)].
  all: unfold ret at 1; unfold open_w; simpl;
    rewrite Hp, (bool_decide_eq_false_2 _ Hd), (bool_decide_eq_true_2 _ Hparent).
  all: rewrite (stream_to_file _ _ _ "") by (simpl; apply lookup_insert_eq);
    simpl; rewrite insert_insert_eq, Hbody.
  all: unfold ret, set_files; simpl.
  all: now rewrite fold_left_append_join.
Qed.

(** C6: with a file already at the destination, a matching digest makes
    [download_file] return [Ok] at once, the world (and so the list of
    requests) untouched.  Otherwise the file is unlinked and the download
    runs as if it had never been there: the GET for the firmware's URL is
    issued, the body that arrives is written to the destination, the
    [finally] clause runs, and the call ends as a download to an empty
    destination ends, the old file gone. *)
Theorem download_file_existing
    (firmware : Firmwares) (version_folder : string) (session : ClientSession)
    (w : world) (data : string) :
  let p := destination env firmware version_folder in
  files w !! p = Some data ->
  p ∉ dirs w ->
  (file_digest env data = sha1sum firmware ->
     download_file env firmware version_folder session w = (Val (Ok p), w))
  /\ (file_digest env data <> sha1sum firmware ->
       let deleted := set_files (delete p (files w)) w in
       download_file env firmware version_folder session w
       = download_file env firmware version_folder session deleted
       /\ requests (snd (download_file env firmware version_folder session w))
          = url firmware :: requests w
       /\ download_file env firmware version_folder session w
          = def_ (try_finally (request_and_stream env firmware p session)
                              (unlink p true) ;;
                  digest <- call (calculate_hash env p) ;;
                  if negb (String.eqb digest (sha1sum firmware))
                  then return_ (Error ("Hash mismatch for " +:+ p))
                  else return_ (Ok p)) deleted
       /\ download_file env firmware version_folder session w
          = (fresh_outcome firmware p (session (requests w) (url firmware))
                           (bool_decide (path_parent env p ∈ dirs w)),
             World (delete p (files w)) (dirs w) (url firmware :: requests w)
                   (ticks w))
       /\ (forall response,
             session (requests w) (url firmware) = GetResponds response ->
             status response = 200%Z ->
             (forall msg, header_content_length response <> CLInvalid msg) ->
             path_parent env p ∈ dirs w ->
             body_failure response = None ->
             request_and_stream env firmware p session deleted
             = (Next tt,
                World (<[p := join_chunks (body_chunks response)]>
                         (delete p (files w)))
                      (dirs w) (url firmware :: requests w) (ticks w)))).
Proof.
  intros p Hp Hd. split.
  - intros Hdigest. now apply (download_file_valid _ _ _ _ data).
  - intros Hdigest deleted.
    assert (Hgone : files deleted !! p = None) by apply lookup_delete_eq.
    assert (Hcorrupt := download_file_corrupt _ _ session _ _ Hp Hdigest).
    fold p in Hcorrupt. fold deleted in Hcorrupt.
    assert (Hfresh := fetch_and_verify_fresh firmware p session deleted Hgone Hd).
    split; [|split; [|split; [|split]]].
    + rewrite Hcorrupt. now rewrite (download_file_fresh _ _ _ deleted Hgone Hd).
    + rewrite Hcorrupt, Hfresh. reflexivity.
    + exact Hcorrupt.
    + rewrite Hcorrupt. exact Hfresh.
    + intros response Hreply Hstatus Hheader Hparent Hbody.
      exact (request_and_stream_complete firmware p session deleted response
               Hgone Hd Hparent Hreply Hstatus Hheader Hbody).
Qed.

(** The defect behind C1 and C3: when the response is 200 and the body is
    streamed to the end, the [finally] clause has unlinked the file by the
    time its digest is taken, so the call ends in [FileNotFoundError],
    whatever the body was. *)
Lemma download_file_completed_stream
    (firmware : Firmwares) (version_folder : string) (session : ClientSession)
    (w : world) (response : http_response) :
  let p := destination env firmware version_folder in
  files w !! p = None -> p ∉ dirs w ->
  path_parent env p ∈ dirs w ->
  session (requests w) (url firmware) = GetResponds response ->
  status response = 200%Z ->
  (forall msg, header_content_length response <> CLInvalid msg) ->
  body_failure response = None ->
  download_file env firmware version_folder session w
  = (Exc (Exn FileNotFoundError p),
     World (files w) (dirs w) (url firmware :: requests w) (ticks w)).
Proof.
  intros p Hp Hd Hparent Hreply Hstatus Hheader Hbody.
  rewrite (download_file_fresh _ _ _ w Hp Hd). fold p.
  rewrite Hreply. unfold fresh_outcome. rewrite Hstatus, Hbody. simpl.
  rewrite (bool_decide_eq_true_2 _ Hparent).
  destruct (header_content_length response) as [|n|msg]; try reflexivity.
  now destruct (Hheader msg).
Qed.

Lemma fresh_outcome_val
    (firmware : Firmwares) (p : string) (reply : http_reply) (writable : bool)
    (r : Result string string) :
  fresh_outcome firmware p reply writable = Val r ->
  r <> Error ("Hash mismatch for " +:+ p) /\ forall q, r <> Ok q.
Proof.
  unfold fresh_outcome. intros H.
  repeat match type of H with
         | context [match ?x with _ => _ end] => destruct x
         end;
    inversion H; subst r; split; simpl; try discriminate; intros q; discriminate.
Qed.

(** [download_file] never reports a hash mismatch, and it returns [Ok] only
    for a file that was at the destination env with the expected digest before
    the call; then it leaves the world as it was. *)
Lemma download_file_results
    (firmware : Firmwares) (version_folder : string) (session : ClientSession)
    (w w' : world) (r : Result string string) :
  let p := destination env firmware version_folder in
  (p ∈ dirs w -> files w !! p = None) ->
  download_file env firmware version_folder session w = (Val r, w') ->
  r <> Error ("Hash mismatch for " +:+ p)
  /\ (forall q, r = Ok q ->
        q = p /\ w' = w /\ exists data, files w !! p = Some data
                                   /\ file_digest env data = sha1sum firmware).
Proof.
  intros p Hwf Hrun.
  destruct (files w !! p) as [data|] eqn:Hp.
  - assert (Hd : p ∉ dirs w) by (intros Hin; specialize (Hwf Hin); discriminate).
    destruct (String.eqb (file_digest env data) (sha1sum firmware)) eqn:E.
    + apply String.eqb_eq in E.
      rewrite (download_file_valid firmware version_folder session w data Hp E)
        in Hrun.
      inversion Hrun; subst r w'. fold p.
      split; [discriminate|]. intros q Hq. inversion Hq; subst q. eauto.
    + assert (Hne : file_digest env data <> sha1sum firmware).
      { intros Heq. rewrite Heq, String.eqb_refl in E. discriminate. }
      rewrite (download_file_corrupt _ _ _ _ _ Hp Hne) in Hrun. fold p in Hrun.
      rewrite (fetch_and_verify_fresh _ _ _ (set_files (delete p (files w)) w)
                 (lookup_delete_eq _ _) Hd) in Hrun.
      inversion Hrun as [[Hr Hw]]. apply fresh_outcome_val in Hr.
      destruct Hr as [H1 H2]. split; [exact H1|]. intros q Hq. now destruct (H2 q).
  - destruct (decide (p ∈ dirs w)) as [Hin|Hd].
    + rewrite download_file_unfold in Hrun. fold p in Hrun.
      rewrite (def_bind_next _ _ w w true) in Hrun.
      * unfold def_, bind, call, calculate_hash, def_, bind, read_bytes in Hrun.
        rewrite Hp, (bool_decide_eq_true_2 _ Hin) in Hrun. discriminate.
      * unfold path_exists. rewrite (bool_decide_eq_true_2 _ Hin).
        now rewrite orb_true_r.
    + rewrite (download_file_fresh _ _ _ w Hp Hd) in Hrun.
      inversion Hrun as [[Hr Hw]]. apply fresh_outcome_val in Hr.
      destruct Hr as [H1 H2]. split; [exact H1|]. intros q Hq. now destruct (H2 q).
Qed.

(** ** Selecting the disk image *)

Lemma max_from_spec {A} (key : A -> Z) (l : list A) (best : A) :
  let m := max_from key best l in
  (m = best \/ In m l)
  /\ (key best <= key m)%Z
  /\ forall x, In x l -> (key x <= key m)%Z.
Proof.
  revert best. induction l as [|x l IH]; intros best; simpl.
  - split; [now left|]. split; [lia|]. intros x [].
  - destruct (key best <? key x)%Z eqn:E.
    + apply Z.ltb_lt in E. destruct (IH x) as (Hin & Hge & Hall).
      repeat split.
      * destruct Hin as [-> | Hin]; auto.
      * lia.
      * intros y [<- | Hy]; auto.
    + apply Z.ltb_ge in E. destruct (IH best) as (Hin & Hge & Hall).
      repeat split.
      * destruct Hin as [-> | Hin]; auto.
      * lia.
      * intros y [<- | Hy]; [lia | auto].
Qed.

(** The built-in [max] with [key=file_size]: from a container with at
    least one entry it gives one of the entries, and none has a larger
    declared size. *)
Lemma biggest_dmg_is_largest (infolist : list ZipInfo) :
  infolist <> [] ->
  exists entry,
    biggest_dmg infolist = Some entry
    /\ In entry infolist
    /\ forall other, In other infolist -> (file_size other <= file_size entry)%Z.
Proof.
  intros Hne. destruct infolist as [|first rest]; [congruence|].
  unfold biggest_dmg, py_max.
  destruct (max_from_spec file_size rest first) as (Hin & Hge & Hall).
  eexists. split; [reflexivity|]. split.
  - destruct Hin as [-> | Hin]; [now left | now right].
  - intros other [<- | Hother]; auto.
Qed.

(** C7: on a container with at least one entry, [extract_the_biggest_dmg]
    goes on with an entry of the container that no other entry exceeds in
    declared size: every statement after the selection runs on that entry.
    In particular, when the entry is already in the output folder with its
    declared size and needs no decryption, 7z is run on that entry's file
    and decides the result. *)
Theorem extract_the_biggest_dmg_selects_largest
    (file output : string) (w : world) (archive : string)
    (infolist : list ZipInfo) :
  files w !! file = Some archive ->
  zip_infolist env archive = Some infolist ->
  infolist <> [] ->
  exists entry,
    In entry infolist
    /\ (forall other, In other infolist ->
          (file_size other <= file_size entry)%Z)
    /\ extract_the_biggest_dmg env file output w
       = def_ (extract_selected env file output archive entry) w
    /\ (let dmg := path_join env output (filename entry) in
        forall data,
          files w !! dmg = Some data ->
          Z.of_nat (String.length data) = file_size entry ->
          str_contains "aea" (path_suffix env dmg) = false ->
          extract_the_biggest_dmg env file output w
          = def_ (result <- call (subprocess_run env
                                    (seven_zip_command dmg output)) ;;
                  if negb (fst result =? 0)%Z then
                    return_ (Error ("Couldn't extract " +:+ file
                                    +:+ ", error: " +:+ snd result))
                  else
                    unlink dmg true ;;
                    unlink file true ;;
                    return_ (Ok tt)) w).
Proof.
  intros Hfile Hzip Hne.
  destruct (biggest_dmg_is_largest infolist Hne) as (entry & Hentry & Hin & Hall).
  exists entry. split; [exact Hin|]. split; [exact Hall|].
  assert (Hselect : extract_the_biggest_dmg env file output w
                    = def_ (extract_selected env file output archive entry) w).
  { unfold extract_the_biggest_dmg.
    rewrite (def_bind_next _ _ w w archive)
      by (unfold read_bytes; now rewrite Hfile).
    rewrite Hzip, (def_bind_next _ _ w w infolist) by reflexivity.
    rewrite Hentry, (def_bind_next _ _ w w entry) by reflexivity.
    reflexivity. }
  split; [exact Hselect|].
  intros dmg data Hdata Hsize Hsuffix. rewrite Hselect.
  unfold extract_selected. fold dmg.
  rewrite (def_bind_next _ _ w w true).
  2:{ unfold path_exists. rewrite Hdata.
      rewrite bool_decide_eq_true_2 by eauto. reflexivity. }
  rewrite (def_bind_next _ _ w w true).
  2:{ unfold bind, stat_size. rewrite Hdata, Hsize, Z.eqb_refl. reflexivity. }
  simpl negb. simpl orb. cbv iota.
  rewrite (def_bind_next _ _ w w tt) by reflexivity.
  rewrite Hsuffix.
  rewrite (def_bind_next _ _ w w dmg) by reflexivity.
  reflexivity.
Qed.

(** ** The resumability check *)

Lemma prefix_true_iff (s1 s2 : string) :
  String.prefix s1 s2 = true <-> exists rest, s2 = s1 +:+ rest.
Proof.
  revert s2. induction s1 as [|c s1 IH]; intros s2.
  - destruct s2; simpl; split; eauto.
  - destruct s2 as [|c' s2]; simpl.
    + split; [discriminate | intros [rest H]; discriminate].
    + destruct (Ascii.ascii_dec c c') as [->|Hne].
      * rewrite IH. split; intros [rest H]; exists rest;
          rewrite append_String in *; congruence.
      * split; [discriminate|]. intros [rest H].
        rewrite append_String in H. congruence.
Qed.

Lemma str_contains_spec (needle hay : string) :
  str_contains needle hay = true <-> occurs_in needle hay.
Proof.
  induction hay as [|c hay IH].
  - change (str_contains needle "") with (String.prefix needle "" || false).
    rewrite orb_false_r, prefix_true_iff. split.
    + intros [rest H]. exists "", rest. exact H.
    + intros (before & after & H). destruct before.
      * eauto.
      * rewrite append_String in H. discriminate.
  - change (str_contains needle (String c hay))
      with (String.prefix needle (String c hay) || str_contains needle hay).
    rewrite orb_true_iff, prefix_true_iff, IH. split.
    + intros [[rest H] | (before & after & H)].
      * exists "", rest. exact H.
      * exists (String c before), after. rewrite append_String. now rewrite H.
    + intros (before & after & H). destruct before as [|c' before].
      * left. eauto.
      * right. exists before, after. rewrite append_String in H. congruence.
Qed.

Lemma run_unfold (firmware : Firmwares) (session : ClientSession) :
  let base_path := path_of_str env (identifier firmware) in
  let version_path := path_join env base_path (version firmware) in
  let json_metadata_path := path_join env base_path "metadata.json" in
  run env firmware session
  = def_ (
      try_except
        (start_time <- now ;;
         mkdir_exist_ok env base_path ;;
         mkdir_exist_ok env version_path ;;
         touch_exist_ok env json_metadata_path ;;
         ledger <- read_text env json_metadata_path ;;
         (if str_contains (version firmware) ledger then return_ None else ret tt) ;;
         stages_from_download env firmware session start_time version_path
                              json_metadata_path)
        (fun e => ret tt) ;;
      return_ None).
Proof. reflexivity. Qed.

(** [mkdir] touches nothing but the set of directories, and it does not
    execute a [return]. *)
Lemma mkdir_exist_ok_cases {R} (p : string) (w : world) :
  exists (c : ctl R unit) (w' : world),
    mkdir_exist_ok env p w = (c, w')
    /\ files w' = files w /\ requests w' = requests w /\ ticks w' = ticks w
    /\ (dirs w' = dirs w \/ dirs w' = {[p]} ∪ dirs w)
    /\ (c = Next tt \/ exists e, c = Raise e).
Proof.
  unfold mkdir_exist_ok.
  repeat match goal with
         | |- context [bool_decide ?P] => destruct (bool_decide P)
         end;
    eexists _, _; (split; [reflexivity|]); simpl; eauto 8.
Qed.

Lemma mkdir_exist_ok_present {R} (p : string) (w : world) :
  p ∈ dirs w -> mkdir_exist_ok (R:=R) env p w = (Next tt, w).
Proof.
  intros H. unfold mkdir_exist_ok. now rewrite (bool_decide_eq_true_2 _ H).
Qed.

Lemma touch_exist_ok_present {R} (p : string) (w : world) :
  is_Some (files w !! p) -> touch_exist_ok (R:=R) env p w = (Next tt, w).
Proof.
  intros H. unfold touch_exist_ok. now rewrite (bool_decide_eq_true_2 _ H).
Qed.

Lemma mkdir_exist_ok_possible {R} (p : string) (w : world) :
  p ∈ dirs w \/ (files w !! p = None /\ path_parent env p ∈ dirs w) ->
  mkdir_exist_ok (R:=R) env p w = (Next tt, set_dirs ({[p]} ∪ dirs w) w).
Proof.
  intros H. destruct (decide (p ∈ dirs w)) as [Hin | Hout].
  - rewrite mkdir_exist_ok_present by exact Hin.
    destruct w as [f d r t]. unfold set_dirs. simpl in *.
    do 2 f_equal. symmetry. apply subseteq_union_1_L. set_solver.
  - destruct H as [H | [Hf Hp]]; [contradiction|].
    unfold mkdir_exist_ok. rewrite (bool_decide_eq_false_2 _ Hout), Hf.
    rewrite bool_decide_eq_false_2 by (intros [x Hx]; discriminate).
    now rewrite (bool_decide_eq_true_2 _ Hp).
Qed.

Lemma touch_exist_ok_possible {R} (p : string) (w : world) :
  is_Some (files w !! p) \/ ((p ∉ dirs w) /\ (path_parent env p ∈ dirs w)) ->
  touch_exist_ok (R:=R) env p w
  = (Next tt,
     set_files (match files w !! p with
                | Some _ => files w
                | None => <[p := ""]> (files w)
                end) w).
Proof.
  intros H. destruct (files w !! p) as [data|] eqn:E.
  - rewrite touch_exist_ok_present by (rewrite E; eauto).
    now destruct w.
  - destruct H as [[x Hx] | [Hd Hp]]; [discriminate|].
    unfold touch_exist_ok. rewrite E.
    rewrite bool_decide_eq_false_2 by (intros [x Hx]; discriminate).
    now rewrite (bool_decide_eq_false_2 _ Hd), (bool_decide_eq_true_2 _ Hp).
Qed.

Lemma try_except_bind_next {R A B} (m : M R A) (k : A -> M R B)
    (handler : exn -> M R B) (w w' : world) (a : A) :
  m w = (Next a, w') ->
  try_except (bind m k) handler w = try_except (k a) handler w'.
Proof. intros H. unfold try_except, bind. now rewrite H. Qed.

Lemma def_bind_same {R A} (m m' : M R A) (k : A -> M R Empty_set) (w w' : world) :
  m w = m' w' -> def_ (bind m k) w = def_ (bind m' k) w'.
Proof. intros H. unfold def_, bind. now rewrite H. Qed.

(** The ledger [run] reads after it has created what was missing. *)
Lemma after_setup_ledger (firmware : Firmwares) (w : world) :
  let json_metadata_path :=
    path_join env (path_of_str env (identifier firmware)) "metadata.json" in
  files (after_setup env firmware w) !! json_metadata_path
  = Some (default "" (files w !! json_metadata_path)).
Proof.
  intros json_metadata_path. unfold after_setup. simpl.
  fold json_metadata_path.
  destruct (files w !! json_metadata_path) as [data|] eqn:E; simpl.
  - exact E.
  - apply lookup_insert_eq.
Qed.

(** With the directories and the ledger in place or creatable, [run]
    arrives at the reading of the ledger, the clock read once and what was
    missing created. *)
Lemma run_setup (firmware : Firmwares) (session : ClientSession) (w : world) :
  let base_path := path_of_str env (identifier firmware) in
  let version_path := path_join env base_path (version firmware) in
  let json_metadata_path := path_join env base_path "metadata.json" in
  setup_possible env firmware w ->
  run env firmware session w
  = def_ (try_except
            (ledger <- read_text env json_metadata_path ;;
             (if str_contains (version firmware) ledger
              then return_ None else ret tt) ;;
             stages_from_download env firmware session (ticks w) version_path
                                  json_metadata_path)
            (fun e => ret tt) ;;
          return_ None) (after_setup env firmware w).
Proof.
  intros base_path version_path json_metadata_path (Hbase & Hversion & Hledger).
  rewrite run_unfold. fold base_path version_path json_metadata_path.
  set (w0 := World (files w) (dirs w) (requests w) (S (ticks w))).
  set (wa := set_dirs ({[base_path]} ∪ dirs w0) w0).
  set (wb := set_dirs ({[version_path]} ∪ dirs wa) wa).
  apply def_bind_same.
  rewrite (try_except_bind_next _ _ _ w w0 (ticks w)) by reflexivity.
  rewrite (try_except_bind_next _ _ _ w0 wa tt)
    by (apply mkdir_exist_ok_possible; exact Hbase).
  rewrite (try_except_bind_next _ _ _ wa wb tt)
    by (apply mkdir_exist_ok_possible; exact Hversion).
  rewrite (try_except_bind_next _ _ _ wb (after_setup env firmware w) tt)
    by (apply touch_exist_ok_possible; exact Hledger).
  reflexivity.
Qed.

(** What [run] does from [download_file] on when nothing is at the
    destination: the GET is issued and the workflow stops, with the
    download's [Error] or, after an exception, with [None]. *)
Lemma stages_from_fresh_download
    (firmware : Firmwares) (session : ClientSession) (start_time : nat)
    (version_path json_metadata_path : string) (w : world) :
  let p := destination env firmware version_path in
  files w !! p = None -> p ∉ dirs w ->
  def_ (try_except
          (stages_from_download env firmware session start_time version_path
                                json_metadata_path)
          (fun e => ret tt) ;;
        return_ None) w
  = (Val (match fresh_outcome firmware p (session (requests w) (url firmware))
                  (bool_decide (path_parent env p ∈ dirs w)) with
          | Val (Error msg) => Some (Error msg)
          | _ => None
          end),
     World (files w) (dirs w) (url firmware :: requests w) (ticks w)).
Proof.
  intros p Hdest Hnodir.
  unfold stages_from_download, def_, bind at 1, try_except, bind at 1, call at 1.
  rewrite (download_file_fresh firmware version_path session w Hdest Hnodir).
  fold p.
  destruct (fresh_outcome _ _ _ _) as [r|e] eqn:Hout.
  - apply fresh_outcome_val in Hout. destruct Hout as [_ Hnotok].
    destruct r as [q|msg]; [now destruct (Hnotok q)|]. reflexivity.
  - reflexivity.
Qed.

(** C8 (amended): with the version occurring in the text of the device's
    ledger, [run] returns [None] at once: no request is issued and no file
    is created, changed or removed; all it may have done is to create the
    device and version directories, which happens before the check.

    With the directories and the ledger in place or creatable (a first run
    included, where [run] creates them, the ledger empty), the world at the
    check is [after_setup].  A ledger that cannot be decoded ends the
    workflow there: [None], nothing requested.  With the version in the
    ledger the result is [None] in that same world.  Without an occurrence
    [run] goes on with the statements that start at [download_file]; when
    nothing is at the destination, the GET for the firmware's URL is issued
    and the result and the final world are those of that download. *)
Theorem run_resumability
    (firmware : Firmwares) (session : ClientSession) (w : world) :
  let base_path := path_of_str env (identifier firmware) in
  let version_path := path_join env base_path (version firmware) in
  let json_metadata_path := path_join env base_path "metadata.json" in
  let ready := after_setup env firmware w in
  (forall data ledger : string,
     files w !! json_metadata_path = Some data ->
     decode_text env data = Some ledger ->
     occurs_in (version firmware) ledger ->
     exists w', run env firmware session w = (Val None, w')
                /\ files w' = files w /\ requests w' = requests w
                /\ (dirs w ⊆ dirs w')
                /\ (dirs w' ⊆ {[base_path; version_path]} ∪ dirs w))
  /\ (setup_possible env firmware w ->
      match decode_text env (default "" (files w !! json_metadata_path)) with
      | None => run env firmware session w = (Val None, ready)
      | Some ledger =>
          (occurs_in (version firmware) ledger ->
             run env firmware session w = (Val None, ready))
          /\ (~ occurs_in (version firmware) ledger ->
               run env firmware session w
               = def_ (try_except
                         (stages_from_download env firmware session (ticks w)
                            version_path json_metadata_path)
                         (fun e => ret tt) ;;
                       return_ None) ready
               /\ (let p := destination env firmware version_path in
                   files ready !! p = None ->
                   p ∉ dirs ready ->
                   run env firmware session w
                   = (Val (match fresh_outcome firmware p
                                   (session (requests w) (url firmware))
                                   (bool_decide (path_parent env p ∈ dirs ready))
                           with
                           | Val (Error msg) => Some (Error msg)
                           | _ => None
                           end),
                      World (files ready) (dirs ready)
                            (url firmware :: requests w) (ticks ready))))
      end).
Proof.
  intros base_path version_path json_metadata_path ready. split.
  - (* the version is in the ledger *)
    intros data ledger Hfile Hdecode Hin. apply str_contains_spec in Hin.
    rewrite run_unfold. fold base_path version_path json_metadata_path.
    unfold def_, bind at 1, try_except, bind at 1, now.
    set (w0 := World (files w) (dirs w) (requests w) (S (ticks w))).
    unfold bind at 1.
    destruct (mkdir_exist_ok_cases (R:=option (Result unit string)) base_path w0)
      as (c1 & wa & -> & Hfa & Hra & _ & Hda & [-> | [e ->]]).
    all: simpl in Hfa, Hra, Hda.
    2:{ exists wa. unfold ret. simpl. repeat split; auto; set_solver. }
    unfold bind at 1.
    destruct (mkdir_exist_ok_cases (R:=option (Result unit string)) version_path wa)
      as (c2 & wb & -> & Hfb & Hrb & _ & Hdb & [-> | [e ->]]).
    2:{ exists wb. unfold ret. simpl.
        split; [reflexivity|]. repeat split; try congruence; set_solver. }
    unfold bind at 1. rewrite touch_exist_ok_present
      by (rewrite Hfb, Hfa; simpl; rewrite Hfile; eauto).
    unfold bind at 1. rewrite (read_text_file _ wb data ledger)
      by (try assumption; rewrite Hfb, Hfa; exact Hfile).
    unfold bind at 1. rewrite Hin. unfold return_.
    exists wb. split; [reflexivity|]. repeat split; try congruence; set_solver.
  - (* from the check on, with the setup done *)
    intros Hsetup.
    rewrite (run_setup firmware session w Hsetup).
    fold base_path version_path json_metadata_path ready.
    assert (Hfile := after_setup_ledger firmware w).
    cbv zeta in Hfile. fold base_path json_metadata_path ready in Hfile.
    destruct (decode_text env (default "" (files w !! json_metadata_path)))
      as [ledger|] eqn:Hdecode.
    + assert (Hread := read_text_file (R:=option (Result unit string))
                         json_metadata_path ready _ ledger Hfile Hdecode).
      split.
      * intros Hin. apply str_contains_spec in Hin.
        unfold def_, bind at 1, try_except, bind at 1.
        rewrite Hread. unfold bind at 1. now rewrite Hin.
      * intros Hnot.
        assert (Hcontains : str_contains (version firmware) ledger = false).
        { destruct (str_contains (version firmware) ledger) eqn:E; [|reflexivity].
          apply str_contains_spec in E. contradiction. }
        assert (Hgo : def_ (try_except
                              (ledger <- read_text env json_metadata_path ;;
                               (if str_contains (version firmware) ledger
                                then return_ None else ret tt) ;;
                               stages_from_download env firmware session (ticks w)
                                 version_path json_metadata_path)
                              (fun e => ret tt) ;;
                            return_ None) ready
                      = def_ (try_except
                                (stages_from_download env firmware session (ticks w)
                                   version_path json_metadata_path)
                                (fun e => ret tt) ;;
                              return_ None) ready).
        { unfold def_, bind at 1, try_except, bind at 1.
          rewrite Hread. unfold bind at 1. rewrite Hcontains.
          unfold ret at 1. reflexivity. }
        rewrite Hgo. split; [reflexivity|].
        intros p Hdest Hnodir.
        exact (stages_from_fresh_download firmware session (ticks w) version_path
                 json_metadata_path ready Hdest Hnodir).
    + unfold def_, bind at 1, try_except, bind at 1, read_text, bind at 1,
        read_bytes.
      rewrite Hfile, Hdecode. reflexivity.
Qed.

(** ** Exceptions stop at the workflow *)

Lemma returns_only_ret {R A} (P : R -> Prop) (a : A) : returns_only P (ret a).
Proof. intros w r w' H. discriminate. Qed.

Lemma returns_only_return {R A} (P : R -> Prop) (r : R) :
  P r -> returns_only P (return_ (A:=A) r).
Proof. intros HP w r' w' H. inversion H. now subst. Qed.

Lemma returns_only_call {R A} (P : R -> Prop) (f : Py A) : returns_only P (call f).
Proof.
  intros w r w' H. unfold call in H. destruct (f w) as [[a|e] w1]; discriminate.
Qed.

Lemma returns_only_bind {R A B} (P : R -> Prop) (m : M R A) (k : A -> M R B) :
  returns_only P m -> (forall a, returns_only P (k a)) ->
  returns_only P (bind m k).
Proof.
  intros Hm Hk w r w' H. unfold bind in H.
  destruct (m w) as [[a|r0|e] w1] eqn:E.
  - eapply Hk; eauto.
  - inversion H; subst. eapply Hm; eauto.
  - discriminate.
Qed.

Lemma returns_only_for_each {R A} (P : R -> Prop) (l : list A) (f : A -> M R unit) :
  (forall x, returns_only P (f x)) -> returns_only P (for_each l f).
Proof.
  intros Hf. induction l as [|x l IH]; simpl.
  - apply returns_only_ret.
  - apply returns_only_bind; auto.
Qed.

Lemma returns_only_now {R} (P : R -> Prop) : returns_only P now.
Proof. intros w r w' H. discriminate. Qed.

Lemma returns_only_mkdir {R} (P : R -> Prop) (p : string) :
  returns_only P (mkdir_exist_ok env p).
Proof.
  intros w r w' H.
  destruct (mkdir_exist_ok_cases (R:=R) p w)
    as (c & w1 & E & _ & _ & _ & _ & [-> | [e ->]]);
    rewrite E in H; discriminate.
Qed.

Lemma returns_only_touch {R} (P : R -> Prop) (p : string) :
  returns_only P (touch_exist_ok env p).
Proof.
  intros w r w' H. unfold touch_exist_ok in H.
  repeat match type of H with
         | context [if ?b then _ else _] => destruct b
         end; discriminate.
Qed.

Lemma returns_only_read_text {R} (P : R -> Prop) (p : string) :
  returns_only P (read_text env p).
Proof.
  intros w r w' H. unfold read_text, bind, read_bytes, ret, raise in H.
  destruct (files w !! p).
  - destruct (decode_text env s); discriminate.
  - destruct (bool_decide (p ∈ dirs w)); discriminate.
Qed.

Create HintDb returns.
#[local] Hint Resolve returns_only_ret returns_only_call returns_only_now
  returns_only_mkdir returns_only_touch returns_only_read_text : returns.

Ltac returns_step :=
  first
    [ progress cbv zeta
    | solve [auto with returns]
    | apply returns_only_return; solve [eauto]
    | apply returns_only_for_each; intros ?
    | apply returns_only_bind; [|intros ?]
    | match goal with
      | |- returns_only _ (match ?x with _ => _ end) => destruct x
      end ].

Lemma stages_from_download_returns
    (firmware : Firmwares) (session : ClientSession) (start_time : nat)
    (version_path json_metadata_path : string) :
  returns_only workflow_result
    (stages_from_download env firmware session start_time version_path
                          json_metadata_path).
Proof.
  unfold stages_from_download, workflow_result. repeat returns_step.
Qed.

(** C2 (amended): whatever the stages, the tools and the file system do,
    and whichever [Exception] they raise, [run] does not raise: it returns
    [None] or the [Error] of the stage that failed. *)
Theorem run_never_raises
    (firmware : Firmwares) (session : ClientSession) (w : world) :
  exists r w', run env firmware session w = (Val r, w') /\ workflow_result r.
Proof.
  rewrite run_unfold. cbv zeta.
  match goal with
  | |- context [try_except ?body ?handler] =>
      assert (Hbody : returns_only workflow_result body)
  end.
  { pose proof stages_from_download_returns as Hstages.
    unfold workflow_result in *. repeat returns_step. }
  unfold def_, bind at 1, try_except.
  match goal with
  | |- context [let (c, w') := ?body w in _] => destruct (body w) as [[[]|r|e] w1] eqn:E
  end; simpl.
  - exists None, w1. split; [reflexivity | now left].
  - exists r, w1. split; [reflexivity|]. eapply Hbody. exact E.
  - exists None, w1. split; [reflexivity | now left].
Qed.

End Properties.

(** ** The admission gate *)

Lemma count_active_app (l1 l2 : list task) :
  count_active (l1 ++ l2) = count_active l1 + count_active l2.
Proof. induction l1 as [|t l1 IH]; simpl; [reflexivity | rewrite IH; lia]. Qed.

Lemma count_active_insert (l : list task) (i : nat) (t t' : task) :
  l !! i = Some t ->
  count_active (<[i := t']> l) + (if is_active t then 1 else 0)
  = count_active l + (if is_active t' then 1 else 0).
Proof.
  revert i. induction l as [|x l IH]; intros i Hi; [discriminate|].
  destruct i as [|i]; simpl in *.
  - inversion Hi; subst. lia.
  - specialize (IH i Hi). lia.
Qed.

Lemma sched_do_invariant (ev : sched_event) (s s' : scheduler) :
  sched_do ev s = Some s' ->
  sem_value s + active_count s = semaphore_capacity ->
  sem_value s' + active_count s' = semaphore_capacity.
Proof.
  unfold active_count. intros Hdo Hinv. destruct ev as [device version|i|i]; simpl in Hdo.
  - inversion Hdo; subst s'. simpl. rewrite count_active_app. simpl. lia.
  - unfold acquire in Hdo.
    destruct (tasks s !! i) as [t|] eqn:Hi; [|discriminate].
    destruct (task_phase t) eqn:Hph; try discriminate.
    destruct (0 <? sem_value s)%nat eqn:Hpos; [|discriminate].
    apply Nat.ltb_lt in Hpos. inversion Hdo; subst s'. simpl.
    pose proof (count_active_insert _ _ _ (with_phase Active t) Hi) as Hc.
    unfold is_active in Hc at 1. rewrite Hph in Hc. simpl in Hc. lia.
  - unfold release in Hdo.
    destruct (tasks s !! i) as [t|] eqn:Hi; [|discriminate].
    destruct (task_phase t) eqn:Hph; try discriminate.
    inversion Hdo; subst s'. simpl.
    pose proof (count_active_insert _ _ _ (with_phase Finished t) Hi) as Hc.
    unfold is_active in Hc at 1. rewrite Hph in Hc. simpl in Hc. lia.
Qed.

Lemma sched_invariant (s : scheduler) :
  sched_reachable s -> sem_value s + active_count s = semaphore_capacity.
Proof.
  induction 1 as [|s s' Hreach IH Hstep].
  - reflexivity.
  - destruct Hstep as [ev s s' Hdo]. eapply sched_do_invariant; eauto.
Qed.

Lemma sched_run_reachable (evs : list sched_event) (s s' : scheduler) :
  sched_reachable s -> sched_run evs s = Some s' -> sched_reachable s'.
Proof.
  revert s. induction evs as [|ev evs IH]; intros s Hreach Hrun; simpl in Hrun.
  - inversion Hrun; subst. exact Hreach.
  - destruct (sched_do ev s) as [s1|] eqn:Hdo; [|discriminate].
    apply (IH s1); [|exact Hrun].
    eapply reachable_step; [exact Hreach | econstructor; exact Hdo].
Defined.

(** However many firmwares a device has, [bake_ipcc] keeps the run within
    the reachable states. *)
Lemma bake_ipcc_reachable (response : Response) (s : scheduler) :
  sched_reachable s -> sched_reachable (bake_ipcc response s).
Proof.
  unfold bake_ipcc. revert s.
  induction (firmwares response) as [|firmware rest IH]; intros s Hreach; simpl.
  - exact Hreach.
  - apply IH. eapply reachable_step; [exact Hreach|].
    apply (sched_step_do (EvCreate (identifier firmware) (version firmware))).
    reflexivity.
Qed.

(** C9: in every state the run can reach, at most five workflows are
    inside their [async with semaphore] block, counted over the tasks of
    all devices together; and with five inside, no further task can enter. *)
Theorem concurrency_bound (s : scheduler) :
  sched_reachable s ->
  active_count s <= 5
  /\ (active_count s = 5 -> forall i, acquire i s = None).
Proof.
  intros Hreach. pose proof (sched_invariant s Hreach) as Hinv.
  unfold semaphore_capacity in Hinv. split; [lia|].
  intros Hfull i. unfold acquire.
  destruct (tasks s !! i) as [t|]; [|reflexivity].
  destruct (task_phase t); try reflexivity.
  destruct (0 <? sem_value s)%nat eqn:Hpos; [|reflexivity].
  apply Nat.ltb_lt in Hpos. lia.
Qed.

Lemma concurrency_bound_witness :
  sched_run demo_schedule main_start = Some demo_scheduler
  /\ length (tasks demo_scheduler) = 6
  /\ active_count demo_scheduler <= 5
  /\ (active_count demo_scheduler = 5 -> forall i, acquire i demo_scheduler = None).
Proof.
  split; [reflexivity|]. split; [reflexivity|].
  apply (concurrency_bound demo_scheduler).
  apply (sched_run_reachable demo_schedule main_start);
    [apply reachable_start | reflexivity].
Defined.

(** ** The theorems at explicit inputs *)

Example read_chunks_sample :
  read_chunks 5 2 "abcde" = ["ab"; "cd"; "e"].
Proof. reflexivity. Qed.

Example str_contains_sample :
  str_contains "1.2" "fw: 11.2" = true /\ str_contains "12.0" "fw: 11.2" = false
  /\ str_contains "" "" = true.
Proof. repeat split. Qed.

Example dict_set_sample :
  dict_set [("fw", PInt 1); ("owner", PStr "lab")] "fw" (PInt 2)
  = [("fw", PInt 2); ("owner", PStr "lab")]
  /\ dict_set [("fw", PInt 1)] "updated_at" (PStr "T0")
     = [("fw", PInt 1); ("updated_at", PStr "T0")].
Proof. split; reflexivity. Qed.

Example biggest_dmg_first_of_equals :
  biggest_dmg [ {| filename := "a.dmg"; file_size := 7 |};
                {| filename := "b.dmg"; file_size := 7 |} ]
  = Some {| filename := "a.dmg"; file_size := 7 |}
  /\ biggest_dmg [] = None.
Proof. split; reflexivity. Qed.

(** Closes a decidable goal without variables by evaluating its decision. *)
Ltac by_evaluation :=
  match goal with
  | |- ?P => exact (bool_decide_unpack P I)
  end.



(** C4, as stated, fails: on a ledger that does not exist [put_metadata]
    raises [FileNotFoundError], applies no callback and writes nothing,
    while on the empty ledger it returns [Ok]; and for the key [updated_at]
    the object written to the empty ledger holds the timestamp, not the
    callback's result. *)
Lemma put_metadata_missing_file_raises :
  put_metadata demo_env demo_ledger "fw" demo_callback (demo_world ∅)
  = (Exc (Exn FileNotFoundError demo_ledger), demo_world ∅)
  /\ fst (put_metadata demo_env demo_ledger "fw" demo_callback
             (demo_world {[ demo_ledger := "" ]}))
     = Val (Ok tt)
  /\ files (snd (put_metadata demo_env demo_ledger "updated_at" demo_callback
                   (demo_world {[ demo_ledger := "" ]}))) !! demo_ledger
     = Some (demo_json_dumps (PDict [("updated_at", PStr "T0")])).
Proof. repeat split; vm_compute; reflexivity. Qed.

Lemma put_metadata_empty_file_witness :
  let written := [("fw", PList [PStr "12.0"]); ("updated_at", PStr "T0")] in
  put_metadata demo_env demo_ledger "fw" demo_callback
    (demo_world {[ demo_ledger := "" ]})
  = (Val (Ok tt),
     World {[ demo_ledger := demo_json_dumps (PDict written) ]} demo_dirs [] 1)
  /\ dict_get written "fw" = PList [PStr "12.0"].
Proof.
  intros written.
  pose proof (put_metadata_empty_file demo_env demo_ledger "fw" demo_callback
                (demo_world {[ demo_ledger := "" ]})
                (demo_world {[ demo_ledger := "" ]})
                "" (PList [PStr "12.0"])
                eq_refl eq_refl eq_refl eq_refl (ex_intro _ "" eq_refl))
    as (Hrun & _ & Hkey & _ & _).
  split.
  - rewrite Hrun. vm_compute. reflexivity.
  - apply Hkey. discriminate.
Defined.

Lemma put_metadata_frame_witness :
  let old := [("fw", PList [PStr "11.4"]); ("owner", PStr "lab")] in
  let w := demo_world {[ demo_ledger := demo_json_dumps (PDict old) ]} in
  exists new,
    files (snd (put_metadata demo_env demo_ledger "fw" demo_callback w)) !! demo_ledger
    = Some (demo_json_dumps (PDict new))
    /\ dict_get new "owner" = PStr "lab".
Proof.
  intros old w.
  destruct (put_metadata demo_env demo_ledger "fw" demo_callback w) as [r w'] eqn:Hrun.
  assert (Hr : r = Val (Ok tt)).
  { apply (f_equal fst) in Hrun. simpl in Hrun. rewrite <- Hrun.
    vm_compute. reflexivity. }
  subst r.
  destruct (put_metadata_frame demo_env demo_ledger "fw" demo_callback w w'
              (demo_json_dumps (PDict old)) (demo_json_dumps (PDict old)) old
              Hrun eq_refl eq_refl eq_refl)
    as (new & Hfile & Hframe).
  exists new. split; [exact Hfile|].
  destruct (Hframe "owner") as [Hget _]; [discriminate | discriminate |].
  rewrite Hget. reflexivity.
Defined.

Lemma download_file_existing_witness :
  let w := demo_world {[ demo_ipsw := "PKdata" ]} in
  let stale := demo_firmware "0a4d55a8d778e5022fab701977c5d840bbc486d0" in
  download_file demo_env (demo_firmware "PKdata") "iPhone7,1/12.0" demo_session w
  = (Val (Ok demo_ipsw), w)
  /\ download_file demo_env stale "iPhone7,1/12.0" demo_session w
     = (Exc (Exn FileNotFoundError demo_ipsw),
        World ∅ demo_dirs ["https://updates.example/iPhone7,1_12.0.ipsw"] 0)
  /\ request_and_stream demo_env stale demo_ipsw demo_session
       (set_files (delete demo_ipsw (files w)) w)
     = (Next tt,
        World {[ demo_ipsw := "PKdata" ]} demo_dirs
              ["https://updates.example/iPhone7,1_12.0.ipsw"] 0).
Proof.
  intros w stale.
  assert (Hfile : demo_ipsw ∉ dirs w) by by_evaluation.
  assert (Hstored : files w !! demo_ipsw = Some "PKdata") by reflexivity.
  split; [|split].
  - destruct (download_file_existing demo_env (demo_firmware "PKdata")
                "iPhone7,1/12.0" demo_session w "PKdata" Hstored Hfile)
      as [Hvalid _].
    exact (Hvalid eq_refl).
  - destruct (download_file_existing demo_env stale
                "iPhone7,1/12.0" demo_session w "PKdata" Hstored Hfile)
      as [_ Hcorrupt].
    destruct Hcorrupt as (_ & _ & _ & Hresult & _); [discriminate|].
    rewrite Hresult. vm_compute. reflexivity.
  - destruct (download_file_existing demo_env stale
                "iPhone7,1/12.0" demo_session w "PKdata" Hstored Hfile)
      as [_ Hcorrupt].
    destruct Hcorrupt as (_ & _ & _ & _ & Htransfer); [discriminate|].
    assert (Hparent : path_parent demo_env
                        (destination demo_env stale "iPhone7,1/12.0") ∈ dirs w)
      by by_evaluation.
    etransitivity;
      [exact (Htransfer _ eq_refl eq_refl
                (fun msg H => ltac:(discriminate H)) Hparent eq_refl)|].
    vm_compute. reflexivity.
Defined.

(** C1, at an explicit input: nothing is at the destination, the server
    answers 200 and the body arrives whole, its digest being the expected
    one.  [download_file] ends in [FileNotFoundError], and no file is at the
    destination afterwards. *)
Theorem download_file_unlinks_completed_download :
  file_digest demo_env "PKdata" = sha1sum (demo_firmware "PKdata")
  /\ download_file demo_env (demo_firmware "PKdata") "iPhone7,1/12.0" demo_session
       (demo_world ∅)
     = (Exc (Exn FileNotFoundError demo_ipsw),
        World ∅ demo_dirs ["https://updates.example/iPhone7,1_12.0.ipsw"] 0).
Proof.
  split; [reflexivity|].
  apply (download_file_completed_stream demo_env (demo_firmware "PKdata")
           "iPhone7,1/12.0" demo_session (demo_world ∅)
           {| status := 200; reason := "OK"; header_content_length := CLInt 6;
              body_chunks := ["PK"; "data"]; body_failure := None |});
    try reflexivity; first [by_evaluation | intros msg; discriminate].
Qed.

(** C3, at an explicit input: as before, but the digest of the body is not
    the expected one.  No [Error] is returned: the call ends in
    [FileNotFoundError]. *)
Theorem download_file_mismatch_raises :
  let firmware := demo_firmware "0a4d55a8d778e5022fab701977c5d840bbc486d0" in
  file_digest demo_env "PKdata" <> sha1sum firmware
  /\ download_file demo_env firmware "iPhone7,1/12.0" demo_session (demo_world ∅)
     = (Exc (Exn FileNotFoundError demo_ipsw),
        World ∅ demo_dirs ["https://updates.example/iPhone7,1_12.0.ipsw"] 0).
Proof.
  intros firmware. split; [discriminate|].
  apply (download_file_completed_stream demo_env firmware
           "iPhone7,1/12.0" demo_session (demo_world ∅)
           {| status := 200; reason := "OK"; header_content_length := CLInt 6;
              body_chunks := ["PK"; "data"]; body_failure := None |});
    try reflexivity; first [by_evaluation | intros msg; discriminate].
Qed.

(** C2, as stated, fails: stages do raise.  [extract_the_biggest_dmg] on an
    archive without entries ends in the [ValueError] of [max], and
    [put_metadata] on a ledger holding a JSON list in [AttributeError]. *)
Lemma stages_can_raise :
  extract_the_biggest_dmg demo_env demo_ipsw "iPhone7,1/12.0"
    (demo_world {[ demo_ipsw := "PK" ]})
  = (Exc (Exn ValueError "max() arg is an empty sequence"),
     demo_world {[ demo_ipsw := "PK" ]})
  /\ put_metadata demo_env demo_ledger "fw" demo_callback
       (demo_world {[ demo_ledger := "[]" ]})
     = (Exc (Exn AttributeError "get"), demo_world {[ demo_ledger := "[]" ]}).
Proof. split; vm_compute; reflexivity. Qed.

Lemma extract_the_biggest_dmg_selects_largest_witness :
  let w := demo_world {[ demo_ipsw := "PKdata" ]} in
  (exists entry,
      entry = {| filename := "048-12345.dmg"; file_size := 4096 |}
      /\ (forall other, In other demo_infolist ->
            (file_size other <= file_size entry)%Z)
      /\ extract_the_biggest_dmg demo_env_three demo_ipsw "iPhone7,1/12.0" w
         = def_ (extract_selected demo_env_three demo_ipsw "iPhone7,1/12.0"
                   "PKdata" entry) w)
  /\ biggest_dmg demo_infolist
     = Some {| filename := "048-12345.dmg"; file_size := 4096 |}
  /\ extract_the_biggest_dmg demo_env_three demo_ipsw "iPhone7,1/12.0" w
     = (Val (Error "Couldn't extract iPhone7,1/12.0/iPhone7,1-12.0.ipsw, error: ERROR"),
        demo_world {[ demo_ipsw := "PKdata";
                      "iPhone7,1/12.0/048-12345.dmg" := "048-12345.dmg" ]}).
Proof.
  intros w.
  assert (Hfile : files w !! demo_ipsw = Some "PKdata") by reflexivity.
  split; [|split].
  - destruct (extract_the_biggest_dmg_selects_largest demo_env_three demo_ipsw
                "iPhone7,1/12.0" w "PKdata" demo_infolist Hfile eq_refl
                ltac:(discriminate))
      as (entry & Hin & Hall & Hselect & _).
    exists entry. split; [|split; [exact Hall | exact Hselect]].
    assert (Hbig := Hall {| filename := "048-12345.dmg"; file_size := 4096 |}
                      ltac:(right; left; reflexivity)).
    simpl in Hbig.
    destruct Hin as [<- | [<- | [<- | []]]]; simpl in Hbig; [lia | reflexivity | lia].
  - reflexivity.
  - vm_compute. reflexivity.
Defined.

(** C8, as stated, fails: with a ledger that already names version 12.0
    but no directory for that version yet, [run] returns [None] as it
    should, having created the directory [iPhone7,1/12.0]. *)
Lemma run_creates_version_directory :
  let w := World {[ demo_ledger := "fw: 11.4, 12.0" ]} {[ "."; "iPhone7,1" ]} [] 0 in
  str_contains "12.0" "fw: 11.4, 12.0" = true
  /\ ("iPhone7,1/12.0" ∉ dirs w)
  /\ exists w', run demo_env (demo_firmware "PKdata") demo_session w = (Val None, w')
                /\ "iPhone7,1/12.0" ∈ dirs w'.
Proof.
  intros w. split; [reflexivity|]. split; [by_evaluation|].
  eexists. split; [vm_compute; reflexivity | by_evaluation].
Qed.

Lemma run_resumability_witness :
  let firmware := demo_firmware "PKdata" in
  let seeded := demo_world {[ demo_ledger := "fw: 11.4, 12.0" ]} in
  let undecodable := demo_world {[ demo_ledger := demo_invalid_bytes ]} in
  (exists w', run demo_env firmware demo_session seeded = (Val None, w')
              /\ files w' = files seeded /\ requests w' = requests seeded
              /\ (dirs seeded ⊆ dirs w')
              /\ (dirs w' ⊆ {[ "iPhone7,1"; "iPhone7,1/12.0" ]} ∪ dirs seeded))
  /\ run demo_env firmware demo_session seeded
     = (Val None, World (files seeded) (dirs seeded) [] 1)
  /\ run demo_env firmware demo_session demo_first_run
     = (Val None,
        World {[ demo_ledger := "" ]}
              {[ "."; "iPhone7,1"; "iPhone7,1/12.0" ]}
              ["https://updates.example/iPhone7,1_12.0.ipsw"] 1)
  /\ run demo_env_ascii firmware demo_session undecodable
     = (Val None, World (files undecodable) (dirs undecodable) [] 1).
Proof.
  intros firmware seeded undecodable.
  assert (Hoccurs : occurs_in (version firmware) "fw: 11.4, 12.0")
    by (exists "fw: 11.4, ", ""; reflexivity).
  assert (Hempty : ~ occurs_in (version firmware) "").
  { intros H. apply str_contains_spec in H. discriminate H. }
  split; [|split; [|split]].
  - assert (H := run_resumability demo_env firmware demo_session seeded).
    cbv zeta in H. destruct H as [Hskip _].
    exact (Hskip "fw: 11.4, 12.0" "fw: 11.4, 12.0" eq_refl eq_refl Hoccurs).
  - assert (H := run_resumability demo_env firmware demo_session seeded).
    cbv zeta in H. destruct H as [_ Hready].
    assert (Hsetup : setup_possible demo_env firmware seeded).
    { split; [left; by_evaluation|].
      split; [left; by_evaluation | left; by_evaluation]. }
    apply Hready in Hsetup. hnf in Hsetup. destruct Hsetup as [Hskip _].
    etransitivity; [exact (Hskip Hoccurs)|]. vm_compute. reflexivity.
  - assert (H := run_resumability demo_env firmware demo_session demo_first_run).
    cbv zeta in H. destruct H as [_ Hready].
    assert (Hsetup : setup_possible demo_env firmware demo_first_run).
    { split; [right; split; [reflexivity | by_evaluation]|].
      split; [right; split; [reflexivity | by_evaluation]|].
      right. split; by_evaluation. }
    apply Hready in Hsetup. hnf in Hsetup. destruct Hsetup as [_ Hgo].
    destruct (Hgo Hempty) as [_ Hdownload].
    assert (Hnodir : destination demo_env firmware "iPhone7,1/12.0"
                     ∉ dirs (after_setup demo_env firmware demo_first_run))
      by by_evaluation.
    etransitivity; [exact (Hdownload eq_refl Hnodir)|]. vm_compute. reflexivity.
  - assert (H := run_resumability demo_env_ascii firmware demo_session undecodable).
    cbv zeta in H. destruct H as [_ Hready].
    assert (Hsetup : setup_possible demo_env_ascii firmware undecodable).
    { split; [left; by_evaluation|].
      split; [left; by_evaluation | left; by_evaluation]. }
    apply Hready in Hsetup. hnf in Hsetup.
    etransitivity; [exact Hsetup|]. vm_compute. reflexivity.
Defined.

(** * Further properties *)

Section Further.

Variable env : Env.

(** ** [calculate_hash] *)

Lemma substring_whole (s : string) : substring 0 (String.length s) s = s.
Proof. induction s as [|c s IH]; simpl; [reflexivity | now rewrite IH]. Qed.

Lemma substring_split (n : nat) (s : string) :
  substring 0 n s +:+ substring n (String.length s - n) s = s.
Proof.
  revert s. induction n as [|n IH]; intros s.
  - rewrite Nat.sub_0_r, substring_whole. now destruct s.
  - destruct s as [|c s]; [reflexivity|].
    simpl. rewrite append_String. now rewrite IH.
Qed.

Lemma length_substring_head (n : nat) (s : string) :
  String.length (substring 0 n s) = Nat.min n (String.length s).
Proof.
  revert s. induction n as [|n IH]; intros s.
  - now destruct s.
  - destruct s as [|c s]; [reflexivity|]. simpl. now rewrite IH.
Qed.

Lemma length_substring_rest (n : nat) (s : string) :
  String.length (substring n (String.length s - n) s) = String.length s - n.
Proof.
  revert s. induction n as [|n IH]; intros s.
  - now rewrite Nat.sub_0_r, substring_whole.
  - destruct s as [|c s]; [reflexivity|]. simpl. apply IH.
Qed.

Lemma read_chunks_join (fuel n : nat) (data : string) :
  0 < n -> String.length data <= fuel ->
  join_chunks (read_chunks fuel n data) = data.
Proof.
  intros Hn. revert data. induction fuel as [|fuel IH]; intros data Hlen.
  - destruct data; [reflexivity | simpl in Hlen; lia].
  - destruct data as [|c data]; [reflexivity|].
    change (read_chunks (S fuel) n (String c data))
      with (substring 0 n (String c data)
            :: read_chunks fuel n
                 (substring n (String.length (String c data) - n) (String c data))).
    set (head := substring 0 n (String c data)).
    set (rest := substring n (String.length (String c data) - n) (String c data)).
    change (join_chunks (head :: read_chunks fuel n rest))
      with (head +:+ join_chunks (read_chunks fuel n rest)).
    rewrite IH; [apply substring_split|].
    unfold rest. rewrite length_substring_rest. simpl in *. lia.
Qed.

Lemma read_chunks_sizes (fuel n : nat) (data : string) :
  0 < n ->
  Forall (fun chunk => 0 < String.length chunk <= n) (read_chunks fuel n data).
Proof.
  intros Hn. revert data. induction fuel as [|fuel IH]; intros data.
  - constructor.
  - destruct data as [|c data]; [constructor|].
    change (read_chunks (S fuel) n (String c data))
      with (substring 0 n (String c data)
            :: read_chunks fuel n
                 (substring n (String.length (String c data) - n) (String c data))).
    constructor; [|apply IH].
    rewrite length_substring_head. simpl. lia.
Qed.

(** X1: the chunks that [calculate_hash] feeds to the hash are the bytes of
    the file, in order and without gaps, each of them non-empty and of at
    most the chunk size. *)
Theorem read_chunks_rebuild (n : nat) (data : string) :
  0 < n ->
  join_chunks (read_chunks (String.length data) n data) = data
  /\ Forall (fun chunk => 0 < String.length chunk <= n)
            (read_chunks (String.length data) n data).
Proof.
  intros Hn. split.
  - now apply read_chunks_join.
  - now apply read_chunks_sizes.
Qed.

Lemma fold_left_update_join (chunks : list string) (h : hash_state env) :
  (forall h a b, sha1_update env (sha1_update env h a) b
                 = sha1_update env h (a +:+ b)) ->
  (forall h, sha1_update env h "" = h) ->
  fold_left (sha1_update env) chunks h = sha1_update env h (join_chunks chunks).
Proof.
  intros Hstream Hempty. revert h. induction chunks as [|c chunks IH]; intros h.
  - simpl. now rewrite Hempty.
  - simpl. rewrite IH. apply Hstream.
Qed.

(** X2: for a hash that can be fed piecewise, [calculate_hash] returns the
    digest of the whole content of the file, whatever its size, and leaves
    the world as it is. *)
Theorem calculate_hash_whole_file (p : string) (w : world) (data : string) :
  (forall h a b, sha1_update env (sha1_update env h a) b
                 = sha1_update env h (a +:+ b)) ->
  (forall h, sha1_update env h "" = h) ->
  files w !! p = Some data ->
  calculate_hash env p w
  = (Val (sha1_hexdigest env (sha1_update env (sha1_new env) data)), w).
Proof.
  intros Hstream Hempty Hp.
  rewrite (calculate_hash_file env p w data Hp). unfold file_digest.
  rewrite (fold_left_update_join _ _ Hstream Hempty).
  rewrite read_chunks_join by lia. reflexivity.
Qed.

(** ** [download_file] *)

Lemma fresh_outcome_exc
    (firmware : Firmwares) (p : string) (reply : http_reply) (writable : bool)
    (e : exn) :
  fresh_outcome firmware p reply writable = Exc e ->
  e = Exn FileNotFoundError p
  /\ exists response, reply = GetResponds response
                      /\ status response = 200%Z
                      /\ body_failure response = None.
Proof.
  unfold fresh_outcome. intros H.
  destruct reply as [e0|response].
  - destruct (is_class ClientError e0); discriminate.
  - destruct (status response =? 200)%Z eqn:Hstatus; simpl in H; [|discriminate].
    apply Z.eqb_eq in Hstatus.
    destruct (header_content_length response); simpl in H; try discriminate;
      destruct writable; simpl in H; try discriminate;
      destruct (body_failure response) as [e1|] eqn:Hbody;
      try (destruct (is_class ClientError e1); discriminate);
      inversion H; eauto.
Qed.

(** The four ways a call of [download_file] can go. *)
Lemma download_file_cases
    (firmware : Firmwares) (version_folder : string) (session : ClientSession)
    (w : world) :
  let p := destination env firmware version_folder in
  let fetched :=
    fresh_outcome firmware p (session (requests w) (url firmware))
                  (bool_decide (path_parent env p ∈ dirs w)) in
  (p ∈ dirs w -> files w !! p = None) ->
  (exists data, files w !! p = Some data
                /\ file_digest env data = sha1sum firmware
                /\ download_file env firmware version_folder session w
                   = (Val (Ok p), w))
  \/ (exists data, files w !! p = Some data
                   /\ file_digest env data <> sha1sum firmware
                   /\ download_file env firmware version_folder session w
                      = (fetched, World (delete p (files w)) (dirs w)
                                        (url firmware :: requests w) (ticks w)))
  \/ (files w !! p = None /\ (p ∈ dirs w)
       /\ download_file env firmware version_folder session w
          = (Exc (Exn IsADirectoryError p), w))
  \/ (files w !! p = None /\ (p ∉ dirs w)
       /\ download_file env firmware version_folder session w
          = (fetched, World (files w) (dirs w)
                            (url firmware :: requests w) (ticks w))).
Proof.
  intros p fetched Hwf.
  destruct (files w !! p) as [data|] eqn:Hp.
  - assert (Hd : p ∉ dirs w) by (intros Hin; specialize (Hwf Hin); discriminate).
    destruct (String.eqb (file_digest env data) (sha1sum firmware)) eqn:E.
    + apply String.eqb_eq in E. left. exists data.
      split; [reflexivity|]. split; [exact E|].
      now apply (download_file_valid env firmware version_folder session w data).
    + assert (Hne : file_digest env data <> sha1sum firmware).
      { intros Heq. rewrite Heq, String.eqb_refl in E. discriminate. }
      right; left. exists data. split; [reflexivity|]. split; [exact Hne|].
      rewrite (download_file_corrupt env _ _ _ _ _ Hp Hne). fold p.
      now rewrite (fetch_and_verify_fresh env _ _ _ (set_files (delete p (files w)) w)
                     (lookup_delete_eq _ _) Hd).
  - destruct (decide (p ∈ dirs w)) as [Hin|Hd].
    + right; right; left. split; [reflexivity|]. split; [exact Hin|].
      rewrite download_file_unfold. fold p.
      rewrite (def_bind_next _ _ w w true).
      * unfold def_, bind, call, calculate_hash, def_, bind, read_bytes.
        now rewrite Hp, (bool_decide_eq_true_2 _ Hin).
      * unfold path_exists. rewrite (bool_decide_eq_true_2 _ Hin).
        now rewrite orb_true_r.
    + right; right; right. split; [reflexivity|]. split; [exact Hd|].
      now apply download_file_fresh.
Qed.

(** X4: however a call of [download_file] ends, every other file and every
    directory is as before, at most one request has been issued, and at the
    destination there is either no file, or the valid file that was there
    before, the call then having returned [Ok] and changed nothing. *)
Theorem download_file_leaves_no_partial_file
    (firmware : Firmwares) (version_folder : string) (session : ClientSession)
    (w w' : world) (r : res (Result string string)) :
  let p := destination env firmware version_folder in
  (p ∈ dirs w -> files w !! p = None) ->
  download_file env firmware version_folder session w = (r, w') ->
  (forall q, q <> p -> files w' !! q = files w !! q)
  /\ dirs w' = dirs w
  /\ (requests w' = requests w \/ requests w' = url firmware :: requests w)
  /\ (files w' !! p = None \/ (r = Val (Ok p) /\ w' = w)).
Proof.
  intros p Hwf Hrun.
  destruct (download_file_cases firmware version_folder session w Hwf)
    as [(data & Hp & Hdigest & E) | [(data & Hp & Hdigest & E)
        | [(Hp & Hin & E) | (Hp & Hd & E)]]];
    fold p in E, Hp; rewrite E in Hrun; inversion Hrun; subst; simpl.
  - repeat split; auto.
  - repeat split; auto.
    + intros q Hq. now apply lookup_delete_ne.
    + left. apply lookup_delete_eq.
  - repeat split; auto.
  - repeat split; auto.
Qed.

(** X5: no exception of the session or of the transfer leaves
    [download_file].  With the destination not a directory, the one way the
    call raises is [FileNotFoundError] for the destination, after a 200
    response whose body has arrived whole. *)
Theorem download_file_raises_only_after_complete_transfer
    (firmware : Firmwares) (version_folder : string) (session : ClientSession)
    (w w' : world) (e : exn) :
  let p := destination env firmware version_folder in
  p ∉ dirs w ->
  download_file env firmware version_folder session w = (Exc e, w') ->
  e = Exn FileNotFoundError p
  /\ exists response,
       session (requests w) (url firmware) = GetResponds response
       /\ status response = 200%Z
       /\ body_failure response = None.
Proof.
  intros p Hd Hrun.
  destruct (download_file_cases firmware version_folder session w)
    as [(data & Hp & Hdigest & E) | [(data & Hp & Hdigest & E)
        | [(Hp & Hin & E) | (Hp & _ & E)]]];
    [intros Hin; contradiction | ..];
    fold p in E; rewrite E in Hrun; inversion Hrun as [[Hout Hw]].
  - now apply fresh_outcome_exc in Hout.
  - contradiction.
  - now apply fresh_outcome_exc in Hout.
Qed.

(** ** [put_metadata] *)

(** X6: [put_metadata] writes no file but the one at its path, and that one
    only when it returns [Ok]: an [Error] or an exception leaves every file
    as it was (for a callback that itself leaves the files alone). *)
Theorem put_metadata_writes_only_on_ok
    (path key : string) (callback : pyval -> Py pyval) (w w' : world)
    (r : res (Result unit string)) :
  (forall acc w0 r0 w1, callback acc w0 = (r0, w1) -> files w1 = files w0) ->
  put_metadata env path key callback w = (r, w') ->
  (forall q, q <> path -> files w' !! q = files w !! q)
  /\ (r <> Val (Ok tt) -> files w' = files w).
Proof.
  intros Hcallback Hrun.
  assert (Hdone : forall (out : res (Result unit string)) (w1 : world),
             (out, w1) = (r, w') -> files w1 = files w ->
             (forall q, q <> path -> files w' !! q = files w !! q)
             /\ (r <> Val (Ok tt) -> files w' = files w)).
  { intros out w1 E Hsame. inversion E; subst. split; congruence. }
  unfold put_metadata, def_, bind, try_except, read_text, bind, read_bytes,
    ret, raise in Hrun.
  destruct (files w !! path) as [data|] eqn:Hp; simpl in Hrun.
  2:{ destruct (bool_decide (path ∈ dirs w)); simpl in Hrun;
        eapply Hdone; eauto. }
  destruct (decode_text env data) as [text|]; simpl in Hrun;
    [|eapply Hdone; eauto].
  destruct (json_loads env _) as [msg|metadata]; simpl in Hrun;
    [eapply Hdone; eauto|].
  destruct metadata as [| | | | | |d]; simpl in Hrun;
    try (eapply Hdone; eauto; fail).
  unfold call in Hrun.
  destruct (callback (dict_get d key) w) as [[v|e] w1] eqn:Hcb;
    apply Hcallback in Hcb; simpl in Hrun.
  2:{ destruct (is_class JSONDecodeError e); simpl in Hrun; eapply Hdone; eauto. }
  unfold now, write_text, bind, open_w, file_write in Hrun. simpl in Hrun.
  assert (Hwritten : forall text0,
             (Val (Ok tt) : res (Result unit string),
              World (<[path := text0]> (<[path := ""]> (files w1))) (dirs w1)
                    (requests w1) (S (ticks w1))) = (r, w') ->
             (forall q, q <> path -> files w' !! q = files w !! q)
             /\ (r <> Val (Ok tt) -> files w' = files w)).
  { intros text0 E. inversion E; subst. simpl. split; [|congruence].
    intros q Hq. rewrite !lookup_insert_ne by congruence. congruence. }
  destruct (files w1 !! path) eqn:Hp1; simpl in Hrun.
  - rewrite lookup_insert_eq in Hrun. simpl in Hrun. eapply Hwritten; eauto.
  - destruct (bool_decide (path ∈ dirs w1)); simpl in Hrun;
      [eapply Hdone; eauto|].
    destruct (bool_decide (path_parent env path ∈ dirs w1)); simpl in Hrun;
      [|eapply Hdone; eauto].
    rewrite lookup_insert_eq in Hrun. simpl in Hrun. eapply Hwritten; eauto.
Qed.

(** X7: the ledger grows at its end.  With the callback of [run],
    [lambda acc: (acc or []) + extra], on a ledger whose object holds the
    list [prior] under the key (or nothing), [put_metadata] returns [Ok] and
    writes the object with [prior] followed by [extra] under the key and a
    fresh [updated_at]. *)
Theorem put_metadata_appends
    (path key : string) (extra prior : list pyval) (w : world)
    (data text : string) (old : list (string * pyval)) :
  files w !! path = Some data ->
  decode_text env data = Some text ->
  json_loads env (if String.eqb text "" then "{}" else text) = inr (PDict old) ->
  dict_get old key = PList prior \/ (dict_get old key = PNone /\ prior = []) ->
  let stamp := PStr (isoformat_now env (ticks w)) in
  let new := dict_set (dict_set old key (PList (prior ++ extra))) "updated_at" stamp in
  put_metadata env path key (fun acc w0 => (or_empty_plus acc extra, w0)) w
  = (Val (Ok tt),
     World (<[path := encode_text env (json_dumps env (PDict new))]> (files w))
           (dirs w) (requests w) (S (ticks w))).
Proof.
  intros Hp Hd Hjson Hprior stamp new.
  assert (Hcb : or_empty_plus (dict_get old key) extra = Val (PList (prior ++ extra))).
  { destruct Hprior as [-> | [-> ->]]; [|reflexivity].
    unfold or_empty_plus. now destruct prior. }
  unfold put_metadata, def_, bind, try_except.
  rewrite (read_text_file env _ _ _ _ Hp Hd). rewrite Hjson.
  unfold ret, call. simpl. rewrite Hcb. unfold now. simpl.
  rewrite write_text_existing by (simpl; eauto). reflexivity.
Qed.

(** X8: the same callback on a ledger that holds something else than a list
    under the key (a non-empty string or object, a number other than zero,
    [true]) makes [put_metadata] raise [TypeError]; nothing is written. *)
Theorem put_metadata_append_type_error
    (path key : string) (extra : list pyval) (w : world)
    (data text : string) (old : list (string * pyval)) :
  files w !! path = Some data ->
  decode_text env data = Some text ->
  json_loads env (if String.eqb text "" then "{}" else text) = inr (PDict old) ->
  truthy (dict_get old key) = true ->
  (forall l, dict_get old key <> PList l) ->
  put_metadata env path key (fun acc w0 => (or_empty_plus acc extra, w0)) w
  = (Exc (Exn TypeError "unsupported operand type(s) for +"), w).
Proof.
  intros Hp Hd Hjson Htruthy Hnolist.
  unfold put_metadata, def_, bind, try_except.
  rewrite (read_text_file env _ _ _ _ Hp Hd). rewrite Hjson.
  unfold ret, call. simpl. unfold or_empty_plus. rewrite Htruthy.
  destruct (dict_get old key) as [| | | | |l|]; try reflexivity.
  now destruct (Hnolist l).
Qed.

(** ** The resumability check *)

(** X9: the check [firmware.version in text] of [run] is a substring test,
    so it also hits on a version that is only part of something the ledger
    holds: whatever occurs in a text that occurs in the ledger, occurs in
    the ledger. *)
Theorem str_contains_trans (needle middle hay : string) :
  str_contains needle middle = true ->
  str_contains middle hay = true ->
  str_contains needle hay = true.
Proof.
  rewrite !str_contains_spec.
  intros (b1 & a1 & ->) (b2 & a2 & ->).
  exists (b2 +:+ b1), (a1 +:+ a2).
  now rewrite !string_append_assoc.
Qed.

(** ** The workflow after the check *)

(** The files at the check are those from before, with an empty ledger
    where there was none. *)
Lemma after_setup_files (firmware : Firmwares) (w : world) :
  let json_metadata_path :=
    path_join env (path_of_str env (identifier firmware)) "metadata.json" in
  (forall p data, files w !! p = Some data ->
                  files (after_setup env firmware w) !! p = Some data)
  /\ (forall p data, files (after_setup env firmware w) !! p = Some data ->
                     files w !! p = Some data
                     \/ (p = json_metadata_path /\ data = ""
                         /\ files w !! json_metadata_path = None)).
Proof.
  intros json_metadata_path. unfold after_setup. simpl.
  fold json_metadata_path.
  destruct (files w !! json_metadata_path) as [old|] eqn:E.
  - split; [auto | intros p data H; now left].
  - split.
    + intros p data H. rewrite lookup_insert_ne; [exact H | congruence].
    + intros p data H. destruct (decide (p = json_metadata_path)) as [-> | Hne].
      * rewrite lookup_insert_eq in H. right. split; [reflexivity|].
        split; congruence.
      * rewrite lookup_insert_ne in H by congruence. now left.
Qed.

(** X10: a workflow whose ledger lacks the version and that finds nothing
    at the destination ends with the download stage.  It issues the GET and
    stops there, whether the server fails or the transfer completes: [run]
    returns [None] or the [Error] of the download, and the files are those
    of the check: every file from before with its content, and nothing new
    but, on a first run, the empty ledger that [touch] created. *)
Theorem run_stops_after_fresh_download
    (firmware : Firmwares) (session : ClientSession) (w : world)
    (ledger : string) :
  let base_path := path_of_str env (identifier firmware) in
  let version_path := path_join env base_path (version firmware) in
  let json_metadata_path := path_join env base_path "metadata.json" in
  let ready := after_setup env firmware w in
  setup_possible env firmware w ->
  decode_text env (default "" (files w !! json_metadata_path)) = Some ledger ->
  str_contains (version firmware) ledger = false ->
  files ready !! destination env firmware version_path = None ->
  destination env firmware version_path ∉ dirs ready ->
  exists r w',
    run env firmware session w = (Val r, w')
    /\ files w' = files ready
    /\ (forall p data, files w !! p = Some data -> files w' !! p = Some data)
    /\ (forall p data, files w' !! p = Some data ->
                       files w !! p = Some data
                       \/ (p = json_metadata_path /\ data = ""
                           /\ files w !! json_metadata_path = None))
    /\ requests w' = url firmware :: requests w
    /\ (r = None \/ exists msg, r = Some (Error msg)).
Proof.
  intros base_path version_path json_metadata_path ready Hsetup Hdecode
    Hcontains Hdest Hnodir.
  rewrite (run_setup env firmware session w Hsetup).
  fold base_path version_path json_metadata_path ready.
  assert (Hfile := after_setup_ledger env firmware w).
  cbv zeta in Hfile. fold base_path json_metadata_path ready in Hfile.
  assert (Hread := read_text_file env (R:=option (Result unit string))
                     json_metadata_path ready _ ledger Hfile Hdecode).
  assert (Hgo : def_ (try_except
                        (ledger <- read_text env json_metadata_path ;;
                         (if str_contains (version firmware) ledger
                          then return_ None else ret tt) ;;
                         stages_from_download env firmware session (ticks w)
                           version_path json_metadata_path)
                        (fun e => ret tt) ;;
                      return_ None) ready
                = def_ (try_except
                          (stages_from_download env firmware session (ticks w)
                             version_path json_metadata_path)
                          (fun e => ret tt) ;;
                        return_ None) ready).
  { unfold def_, bind at 1, try_except, bind at 1.
    rewrite Hread. unfold bind at 1. rewrite Hcontains.
    unfold ret at 1. reflexivity. }
  rewrite Hgo.
  rewrite (stages_from_fresh_download env firmware session (ticks w) version_path
             json_metadata_path ready Hdest Hnodir).
  destruct (after_setup_files firmware w) as [Hkept Hnew].
  eexists _, _. split; [reflexivity|]. simpl.
  split; [reflexivity|]. split; [exact Hkept|]. split; [exact Hnew|].
  split; [reflexivity|].
  destruct (fresh_outcome _ _ _ _) as [[q|msg]|e]; eauto.
Qed.

(** ** The disk image among equals *)

Lemma max_from_keep {A} (key : A -> Z) (best : A) (l : list A) :
  (forall x, In x l -> (key x <= key best)%Z) -> max_from key best l = best.
Proof.
  revert best. induction l as [|x l IH]; intros best Hall; simpl; [reflexivity|].
  assert (Hx : (key x <= key best)%Z) by (apply Hall; now left).
  destruct (key best <? key x)%Z eqn:E; [apply Z.ltb_lt in E; lia|].
  apply IH. intros y Hy. apply Hall. now right.
Qed.

Lemma max_from_reach {A} (key : A -> Z) (best entry : A) (before after : list A) :
  (key best < key entry)%Z ->
  (forall x, In x before -> (key x < key entry)%Z) ->
  (forall x, In x after -> (key x <= key entry)%Z) ->
  max_from key best (before ++ entry :: after) = entry.
Proof.
  revert best. induction before as [|x before IH]; intros best Hbest Hbefore Hafter; simpl.
  - apply Z.ltb_lt in Hbest. rewrite Hbest. now apply max_from_keep.
  - apply IH; auto.
    + destruct (key best <? key x)%Z; [apply Hbefore; now left | exact Hbest].
    + intros y Hy. apply Hbefore. now right.
Qed.

(** X11: the entry [extract_the_biggest_dmg] takes is the first one of the
    largest declared size: an entry that is larger than all entries listed
    before it and not smaller than any listed after it. *)
Theorem biggest_dmg_first_of_largest (before after : list ZipInfo) (entry : ZipInfo) :
  (forall x, In x before -> (file_size x < file_size entry)%Z) ->
  (forall x, In x after -> (file_size x <= file_size entry)%Z) ->
  biggest_dmg (before ++ entry :: after) = Some entry.
Proof.
  intros Hbefore Hafter. unfold biggest_dmg, py_max.
  destruct before as [|first before]; simpl.
  - f_equal. now apply max_from_keep.
  - f_equal. apply max_from_reach; auto.
    + apply Hbefore. now left.
    + intros x Hx. apply Hbefore. now right.
Qed.

(** ** What the stages return *)

Lemma returns_only_raise {R A} (P : R -> Prop) (e : exn) :
  returns_only P (raise (A:=A) e).
Proof. intros w r w' H. discriminate. Qed.

Lemma returns_only_read_bytes {R} (P : R -> Prop) (p : string) :
  returns_only P (read_bytes p).
Proof.
  intros w r w' H. unfold read_bytes in H.
  destruct (files w !! p); [discriminate|].
  destruct (bool_decide (p ∈ dirs w)); discriminate.
Qed.

Lemma returns_only_path_exists {R} (P : R -> Prop) (p : string) :
  returns_only P (path_exists p).
Proof. intros w r w' H. discriminate. Qed.

Lemma returns_only_stat_size {R} (P : R -> Prop) (p : string) :
  returns_only P (stat_size env p).
Proof.
  intros w r w' H. unfold stat_size in H.
  destruct (files w !! p); [discriminate|].
  destruct (bool_decide (p ∈ dirs w)); discriminate.
Qed.

Lemma returns_only_open_w {R} (P : R -> Prop) (p : string) :
  returns_only P (open_w env p).
Proof.
  intros w r w' H. unfold open_w in H.
  destruct (files w !! p); [discriminate|].
  destruct (bool_decide (p ∈ dirs w)); [discriminate|].
  destruct (bool_decide (path_parent env p ∈ dirs w)); discriminate.
Qed.

Lemma returns_only_file_write {R} (P : R -> Prop) (p chunk : string) :
  returns_only P (file_write p chunk).
Proof. intros w r w' H. discriminate. Qed.

Lemma returns_only_unlink {R} (P : R -> Prop) (p : string) (missing_ok : bool) :
  returns_only P (unlink p missing_ok).
Proof.
  intros w r w' H. unfold unlink in H.
  destruct (files w !! p); [discriminate|].
  destruct (bool_decide (p ∈ dirs w)); [discriminate|].
  destruct missing_ok; discriminate.
Qed.

Lemma returns_only_try_except {R A} (P : R -> Prop) (body : M R A)
    (handler : exn -> M R A) :
  returns_only P body -> (forall e, returns_only P (handler e)) ->
  returns_only P (try_except body handler).
Proof.
  intros Hbody Hhandler w r w' H. unfold try_except in H.
  destruct (body w) as [[a|r0|e] w1] eqn:E.
  - discriminate.
  - inversion H; subst. eapply Hbody; eauto.
  - eapply Hhandler; eauto.
Qed.

Lemma returns_only_check_run {R} (P : R -> Prop) (cmd : list string) :
  returns_only P (check_run env cmd).
Proof.
  unfold check_run. apply returns_only_bind.
  - apply returns_only_call.
  - intros r. destruct (fst r =? 0)%Z;
      [apply returns_only_ret | apply returns_only_raise].
Qed.

Lemma def_returns {R} (body : M R Empty_set) (w w' : world) (r : R) :
  def_ body w = (Val r, w') -> body w = (Return r, w').
Proof.
  unfold def_. destruct (body w) as [[[]|r0|e] w1]; intros H; inversion H.
  reflexivity.
Qed.

Lemma never_returns_with {R A} (Q : R -> world -> Prop) (m : M R A) :
  returns_only (fun _ => False) m -> returns_with Q m.
Proof. intros Hm w r w' H. now destruct (Hm w r w' H). Qed.

Lemma returns_with_return {R A} (Q : R -> world -> Prop) (r : R) :
  (forall w, Q r w) -> returns_with Q (return_ (A:=A) r).
Proof. intros HQ w r' w' H. inversion H; subst. apply HQ. Qed.

Lemma returns_with_bind {R A B} (Q : R -> world -> Prop) (m : M R A)
    (k : A -> M R B) :
  returns_with Q m -> (forall a, returns_with Q (k a)) ->
  returns_with Q (bind m k).
Proof.
  intros Hm Hk w r w' H. unfold bind in H.
  destruct (m w) as [[a|r0|e] w1] eqn:E.
  - eapply Hk; eauto.
  - inversion H; subst. eapply Hm; eauto.
  - discriminate.
Qed.

Create HintDb noreturn.
#[local] Hint Resolve returns_only_ret returns_only_call returns_only_now
  returns_only_raise returns_only_read_bytes returns_only_path_exists
  returns_only_stat_size returns_only_open_w returns_only_file_write
  returns_only_unlink returns_only_check_run : noreturn.

Ltac returns_only_step :=
  first
    [ progress cbv zeta
    | solve [auto with noreturn]
    | apply returns_only_return; solve [eauto 6]
    | apply returns_only_for_each; intros ?
    | apply returns_only_try_except; [|intros ?]
    | apply returns_only_bind; [|intros ?]
    | match goal with
      | |- returns_only _ (match ?x with _ => _ end) => destruct x
      end ].

(** At the end of [extract_the_biggest_dmg]: the container is unlinked
    before [Ok] is returned. *)
Lemma unlink_then_ok (file : string) :
  returns_with (fun (r : Result unit string) w' =>
                  r = Ok tt -> files w' !! file = None)
               (unlink file true ;; return_ (A:=Empty_set) (Ok tt)).
Proof.
  intros w r w' H _. unfold bind, unlink, return_ in H.
  destruct (files w !! file) eqn:Hfile.
  - inversion H; subst. simpl. apply lookup_delete_eq.
  - destruct (bool_decide (file ∈ dirs w)); [discriminate|].
    inversion H; subst. exact Hfile.
Qed.

Ltac returns_with_step :=
  first
    [ progress cbv zeta
    | apply unlink_then_ok
    | apply never_returns_with; solve [auto with noreturn]
    | apply returns_with_return; intros ? ?; discriminate
    | apply never_returns_with; apply returns_only_for_each; intros ?;
      solve [auto with noreturn]
    | apply returns_with_bind; [|intros ?]
    | match goal with
      | |- returns_with _ (match ?x with _ => _ end) => destruct x
      end ].

(** X12: whenever [extract_the_biggest_dmg] returns [Ok], the IPSW
    container it was given is gone from the disk, whatever the zip library,
    the decryption and 7z did. *)
Theorem extract_the_biggest_dmg_ok_removes_container
    (file output : string) (w w' : world) :
  extract_the_biggest_dmg env file output w = (Val (Ok tt), w') ->
  files w' !! file = None.
Proof.
  intros Hrun. unfold extract_the_biggest_dmg in Hrun. apply def_returns in Hrun.
  match type of Hrun with
  | ?body w = _ =>
      assert (Hbody : returns_with (fun (r : Result unit string) w' =>
                                      r = Ok tt -> files w' !! file = None) body)
  end.
  { repeat returns_with_step. }
  exact (Hbody w _ w' Hrun eq_refl).
Qed.

(** X13: [extract_the_biggest_dmg] does not return a result for a
    container it cannot use: a missing file, a file that is no zip archive
    and an archive without entries each end in an exception, with the world
    untouched. *)
Theorem extract_the_biggest_dmg_unusable_container
    (file output : string) (w : world) :
  files w !! file = None
  \/ (exists archive, files w !! file = Some archive
                      /\ (zip_infolist env archive = None
                          \/ zip_infolist env archive = Some [])) ->
  exists e, extract_the_biggest_dmg env file output w = (Exc e, w)
            /\ (exn_cls e = FileNotFoundError \/ exn_cls e = IsADirectoryError
                \/ exn_cls e = BadZipFile \/ exn_cls e = ValueError).
Proof.
  intros Hcases.
  unfold extract_the_biggest_dmg, def_, bind, read_bytes, ret, raise.
  destruct Hcases as [Hmissing | (archive & Hfile & [Hbad | Hempty])].
  - rewrite Hmissing. destruct (bool_decide (file ∈ dirs w)); eexists; simpl; eauto.
  - rewrite Hfile, Hbad. eexists; simpl; eauto.
  - rewrite Hfile, Hempty. simpl. eexists; simpl; eauto 6.
Qed.

(** ** Relocating and packaging *)

Lemma for_each_moves (base_path : string) (bundles : list string) (w : world) :
  (forall src dst w0, exists w1, shutil_move env src dst w0 = (Val tt, w1)) ->
  exists w1,
    for_each (R:=Result (list string) string) bundles
      (fun bundle => call (shutil_move env bundle base_path)) w
    = (Next tt, w1).
Proof.
  intros Hmove. revert w. induction bundles as [|bundle rest IH]; intros w; simpl.
  - eexists. reflexivity.
  - unfold bind, call. destruct (Hmove bundle base_path w) as [w1 ->].
    apply IH.
Qed.

(** X14: when the moves succeed, [delete_non_bundles] returns [Ok] with one
    path per bundle, in order, each the bundle's name under the base path;
    a failure to remove the [System] tree does not show. *)
Theorem delete_non_bundles_returns_new_paths
    (base_path : string) (bundles : list string) (w : world) :
  (forall src dst w0, exists w1, shutil_move env src dst w0 = (Val tt, w1)) ->
  exists w',
    delete_non_bundles env base_path bundles w
    = (Val (Ok (map (fun bundle => path_join env base_path (path_name env bundle))
                    bundles)), w').
Proof.
  intros Hmove. unfold delete_non_bundles, def_, bind at 1.
  destruct (for_each_moves base_path bundles w Hmove) as [w1 ->].
  unfold bind, try_except, call, ret, return_.
  destruct (shutil_rmtree env (path_join env base_path "System") w1) as [[[]|e] w2];
    eexists; reflexivity.
Qed.

Lemma tar_and_hash_loop_records {R} (bundles : list string) (acc : list pyval)
    (w w' : world) (c : ctl R (list pyval)) :
  tar_and_hash_loop env bundles acc w = (c, w') ->
  match c with
  | Next out => exists records, out = (acc ++ records)%list
                                /\ packaged env bundles w records w'
  | Return _ => False
  | Raise _ => True
  end.
Proof.
  revert acc w. induction bundles as [|bundle rest IH]; intros acc w Hloop.
  - inversion Hloop; subst. exists []. split; [now rewrite app_nil_r | constructor].
  - simpl in Hloop. unfold bind at 1, call at 1 in Hloop.
    destruct (tar_add env _ bundle _ w) as [[[]|e] w1] eqn:Htar;
      [|inversion Hloop; exact I].
    unfold bind at 1, call at 1 in Hloop.
    destruct (files w1 !! path_with_suffix env bundle ".tar") as [data|] eqn:Hfile.
    2:{ unfold calculate_hash, def_, bind, read_bytes in Hloop. rewrite Hfile in Hloop.
        destruct (bool_decide _); inversion Hloop; exact I. }
    rewrite (calculate_hash_file env _ _ _ Hfile) in Hloop.
    unfold bind at 1, stat_size at 1 in Hloop. rewrite Hfile in Hloop.
    unfold bind at 1, now at 1 in Hloop.
    apply IH in Hloop. destruct c as [out|r0|e]; auto.
    destruct Hloop as (records & -> & Hrecords).
    exists (bundle_record env bundle data (ticks w1) :: records). split.
    + rewrite <- app_assoc. reflexivity.
    + econstructor; eauto.
Qed.

Lemma packaged_length (bundles : list string) (w w' : world) (records : list pyval) :
  packaged env bundles w records w' -> length records = length bundles.
Proof. induction 1; simpl; congruence. Qed.

(** X15: [tar_and_hash_bundles] never returns [Error]: what it returns is
    [Ok] with one record per bundle, in the order of the bundles.  The
    record of a bundle names its tar file and holds the digest and the
    length of what that file contains once [tarfile] has written it, and
    the time read then; every failure on the way is an exception. *)
Theorem tar_and_hash_bundles_records
    (bundles : list string) (w w' : world) (r : Result (list pyval) string) :
  tar_and_hash_bundles env bundles w = (Val r, w') ->
  exists records, r = Ok records
                  /\ packaged env bundles w records w'
                  /\ length records = length bundles.
Proof.
  intros Hrun. unfold tar_and_hash_bundles in Hrun. apply def_returns in Hrun.
  unfold bind in Hrun.
  destruct (tar_and_hash_loop env bundles [] w) as [c w1] eqn:Hloop.
  apply tar_and_hash_loop_records in Hloop.
  destruct c as [out|r0|e]; [|contradiction|discriminate].
  destruct Hloop as (records & -> & Hrecords).
  inversion Hrun; subst. exists records.
  split; [reflexivity|]. split; [exact Hrecords|].
  eapply packaged_length; eauto.
Qed.

(** ** [decrypt_dmg_aea] *)

(** X16: the failures [decrypt_dmg_aea] reports as [Error] are the key
    extraction, the decryption and the lack of a PEM file; anything else
    that goes wrong (the installation of the tool, the removal of the key
    folder) is not returned but raised. *)
Theorem decrypt_dmg_aea_results
    (ipsw_file dmg_file output : string) (w w' : world) (r : Result unit string) :
  decrypt_dmg_aea env ipsw_file dmg_file output w = (Val r, w') ->
  r = Ok tt
  \/ r = Error "No PEM file found."
  \/ (exists stderr, r = Error ("Extraction failed: " +:+ stderr))
  \/ (exists stderr, r = Error ("Decryption failed: " +:+ stderr)).
Proof.
  intros Hrun. unfold decrypt_dmg_aea in Hrun. apply def_returns in Hrun.
  match type of Hrun with
  | ?body w = _ =>
      assert (Hbody : returns_only
                (fun r : Result unit string =>
                   r = Ok tt
                   \/ r = Error "No PEM file found."
                   \/ (exists stderr, r = Error ("Extraction failed: " +:+ stderr))
                   \/ (exists stderr, r = Error ("Decryption failed: " +:+ stderr)))
                body)
  end.
  { repeat returns_only_step. }
  exact (Hbody w r w' Hrun).
Qed.

(** X3: a value returned by [download_file] is either [Ok] for the image
    that was stored at the destination with the expected digest before the
    call, the world being left as it was, or an [Error] of the request or
    the transfer; it is never the [Error] of a hash mismatch. *)
Theorem download_file_returns
    (firmware : Firmwares) (version_folder : string) (session : ClientSession)
    (w w' : world) (r : Result string string) :
  let p := destination env firmware version_folder in
  (p ∈ dirs w -> files w !! p = None) ->
  download_file env firmware version_folder session w = (Val r, w') ->
  (r = Ok p /\ w' = w
   /\ exists data, files w !! p = Some data
                   /\ file_digest env data = sha1sum firmware)
  \/ (exists msg, r = Error msg
                  /\ msg <> "Hash mismatch for " +:+ p
                  /\ requests w' = url firmware :: requests w).
Proof.
  intros p Hwf Hrun.
  assert (Hfetched : forall reply writable w1,
             (fresh_outcome firmware p reply writable,
              World (files w1) (dirs w) (url firmware :: requests w) (ticks w))
             = (Val r, w') ->
             exists msg, r = Error msg
                         /\ msg <> "Hash mismatch for " +:+ p
                         /\ requests w' = url firmware :: requests w).
  { intros reply writable w1 E. inversion E as [[Hout Hw]].
    apply fresh_outcome_val in Hout. destruct Hout as [Hmismatch Hnotok].
    destruct r as [q|msg]; [now destruct (Hnotok q)|].
    exists msg. split; [reflexivity|]. split; [congruence|].
    subst w'. reflexivity. }
  destruct (download_file_cases firmware version_folder session w Hwf)
    as [(data & Hp & Hdigest & E) | [(data & Hp & Hdigest & E)
        | [(Hp & Hin & E) | (Hp & Hd & E)]]];
    fold p in E, Hp; rewrite E in Hrun.
  - inversion Hrun; subst. left. eauto.
  - right. apply (Hfetched _ _ (set_files (delete p (files w)) w) Hrun).
  - discriminate.
  - right. apply (Hfetched _ _ w Hrun).
Qed.

End Further.

(** ** What [main] schedules *)

Lemma bake_ipcc_tasks (response : Response) (s : scheduler) :
  tasks (bake_ipcc response s)
  = (tasks s ++ map waiting_task_of (firmwares response))%list
  /\ sem_value (bake_ipcc response s) = sem_value s.
Proof.
  unfold bake_ipcc. revert s.
  induction (firmwares response) as [|firmware rest IH]; intros s; simpl.
  - now rewrite app_nil_r.
  - destruct (IH (create_task (identifier firmware) (version firmware) s))
      as [Htasks Hsem].
    rewrite Htasks, Hsem. simpl. now rewrite <- app_assoc.
Qed.

Lemma count_active_waiting (l : list Firmwares) :
  count_active (map waiting_task_of l) = 0.
Proof. induction l as [|x l IH]; simpl; [reflexivity | exact IH]. Qed.

(** X17: [bake_ipcc] starts nothing.  It adds one waiting task per firmware
    of the device, in the order of the catalog's answer, behind the tasks
    that exist; the semaphore's value and the number of running workflows
    stay what they were. *)
Theorem bake_ipcc_adds_waiting_tasks (response : Response) (s : scheduler) :
  tasks (bake_ipcc response s)
  = (tasks s ++ map waiting_task_of (firmwares response))%list
  /\ sem_value (bake_ipcc response s) = sem_value s
  /\ active_count (bake_ipcc response s) = active_count s.
Proof.
  destruct (bake_ipcc_tasks response s) as [Htasks Hsem].
  split; [exact Htasks|]. split; [exact Hsem|].
  unfold active_count. rewrite Htasks, count_active_app, count_active_waiting. lia.
Qed.


Lemma main_loop_tasks (catalog : string -> option Response) (codes : list string)
    (s : scheduler) :
  tasks (fold_left (fun s code => fetch_and_bake catalog code s) codes s)
  = (tasks s
     ++ flat_map (fun code =>
                    match catalog (device_model code) with
                    | Some response => map waiting_task_of (firmwares response)
                    | None => []
                    end) codes)%list.
Proof.
  revert s. induction codes as [|code codes IH]; intros s; simpl.
  - now rewrite app_nil_r.
  - rewrite IH. unfold fetch_and_bake.
    destruct (catalog (device_model code)) as [response|].
    + destruct (bake_ipcc_tasks response s) as [-> _]. now rewrite <- app_assoc.
    + reflexivity.
Qed.

Lemma count_tasks_app (device version : string) (l1 l2 : list task) :
  count_tasks device version (l1 ++ l2)
  = count_tasks device version l1 + count_tasks device version l2.
Proof. induction l1 as [|t l1 IH]; simpl; [reflexivity | rewrite IH; lia]. Qed.

Lemma count_tasks_of_firmware (firmware : Firmwares) (l : list Firmwares) :
  In firmware l ->
  1 <= count_tasks (identifier firmware) (version firmware) (map waiting_task_of l).
Proof.
  induction l as [|x l IH]; intros Hin; [destruct Hin|].
  destruct Hin as [-> | Hin]; simpl.
  - rewrite !String.eqb_refl. simpl. lia.
  - specialize (IH Hin). lia.
Qed.

Lemma count_tasks_listed_twice (device version : string)
    (f : string -> list task) (before after : list string) (code : string) :
  2 * count_tasks device version (f code)
  <= count_tasks device version (flat_map f (before ++ [code; code] ++ after)).
Proof.
  rewrite !flat_map_app, !count_tasks_app.
  change (flat_map f [code; code]) with (f code ++ f code ++ [])%list.
  rewrite app_nil_r, count_tasks_app. lia.
Qed.

(** X19: the device list names [10,4] twice, so [main] asks the catalog for
    iPhone10,4 twice and creates two workflows for every firmware the
    catalog lists for it. *)
Theorem main_schedules_iPhone10_4_twice
    (catalog : string -> option Response) (response : Response)
    (firmware : Firmwares) :
  catalog "iPhone10,4" = Some response ->
  In firmware (firmwares response) ->
  2 <= count_tasks (identifier firmware) (version firmware)
                   (tasks (main_creates catalog)).
Proof.
  intros Hcatalog Hin. unfold main_creates. rewrite main_loop_tasks. simpl tasks.
  rewrite app_nil_l.
  change IPHONES_PRODUCT_CODES
    with ([ "7,1"; "7,2"; "8,1"; "8,2"; "8,4"; "9,1"; "9,2"; "9,3"; "9,4";
            "10,1"; "10,2" ]
          ++ [ "10,4"; "10,4" ]
          ++ [ "10,5"; "10,6"; "11,2"; "11,4"; "11,6"; "11,8";
               "12,1"; "12,3"; "12,5"; "12,8"; "13,1"; "13,2"; "13,3"; "13,4";
               "14,2"; "14,3"; "14,4"; "14,5"; "14,6" ])%list.
  match goal with
  | |- _ <= count_tasks ?d ?v (flat_map ?f (?before ++ _ ++ ?after)) =>
      pose proof (count_tasks_listed_twice d v f before after "10,4") as Htwice
  end.
  cbv beta in Htwice.
  change (device_model "10,4") with "iPhone10,4" in Htwice.
  rewrite Hcatalog in Htwice.
  pose proof (count_tasks_of_firmware firmware (firmwares response) Hin). lia.
Qed.

(** ** The further properties at explicit inputs *)

Lemma demo_callback_keeps_files (acc : pyval) (w0 : world)
    (r0 : res pyval) (w1 : world) :
  demo_callback acc w0 = (r0, w1) -> files w1 = files w0.
Proof. intros H. inversion H. reflexivity. Qed.

Lemma read_chunks_rebuild_witness :
  join_chunks (read_chunks 5 2 "abcde") = "abcde"
  /\ Forall (fun chunk => 0 < String.length chunk <= 2) (read_chunks 5 2 "abcde").
Proof. apply (read_chunks_rebuild 2 "abcde"). lia. Defined.

Lemma calculate_hash_whole_file_witness :
  let w := demo_world {[ demo_ipsw := "PKdata" ]} in
  calculate_hash demo_env demo_ipsw w = (Val "PKdata", w).
Proof.
  intros w.
  apply (calculate_hash_whole_file demo_env demo_ipsw w "PKdata").
  - intros h a b. apply string_append_assoc.
  - intros h. apply string_append_nil_r.
  - reflexivity.
Defined.

Lemma download_file_returns_witness :
  let w := demo_world ∅ in
  exists msg w',
    download_file demo_env (demo_firmware "PKdata") "iPhone7,1/12.0"
      demo_session_404 w = (Val (Error msg), w')
    /\ msg = "Failed to download iPhone7,1: 404 Not Found"
    /\ requests w' = ["https://updates.example/iPhone7,1_12.0.ipsw"].
Proof.
  intros w.
  destruct (download_file demo_env (demo_firmware "PKdata") "iPhone7,1/12.0"
              demo_session_404 w) as [r w'] eqn:Hrun.
  assert (Hr : r = Val (Error "Failed to download iPhone7,1: 404 Not Found")).
  { apply (f_equal fst) in Hrun. simpl in Hrun. rewrite <- Hrun.
    vm_compute. reflexivity. }
  subst r.
  assert (Hwf : destination demo_env (demo_firmware "PKdata") "iPhone7,1/12.0"
                ∈ dirs w ->
                files w !! destination demo_env (demo_firmware "PKdata")
                             "iPhone7,1/12.0" = None)
    by (intros _; reflexivity).
  destruct (download_file_returns demo_env (demo_firmware "PKdata")
              "iPhone7,1/12.0" demo_session_404 w w' _ Hwf Hrun)
    as [(Hok & _) | (msg & Hmsg & _ & Hrequests)]; [discriminate|].
  inversion Hmsg; subst msg. eauto.
Defined.

Lemma download_file_leaves_no_partial_file_witness :
  let w := demo_world {[ demo_ledger := "{}" ]} in
  let after := snd (download_file demo_env (demo_firmware "PKdata") "iPhone7,1/12.0"
                      demo_session w) in
  files after !! demo_ledger = Some "{}" /\ dirs after = dirs w.
Proof.
  intros w after. unfold after.
  destruct (download_file demo_env (demo_firmware "PKdata") "iPhone7,1/12.0"
              demo_session w) as [r w'] eqn:Hrun.
  assert (Hwf : destination demo_env (demo_firmware "PKdata") "iPhone7,1/12.0"
                ∈ dirs w ->
                files w !! destination demo_env (demo_firmware "PKdata")
                             "iPhone7,1/12.0" = None)
    by (intros _; reflexivity).
  destruct (download_file_leaves_no_partial_file demo_env (demo_firmware "PKdata")
              "iPhone7,1/12.0" demo_session w w' r Hwf Hrun)
    as (Hothers & Hdirs & _ & _).
  split; [|exact Hdirs].
  simpl. rewrite (Hothers demo_ledger); [reflexivity | discriminate].
Defined.

Lemma download_file_raises_only_after_complete_transfer_witness :
  let w := demo_world ∅ in
  fst (download_file demo_env (demo_firmware "PKdata") "iPhone7,1/12.0"
         demo_session w)
  = Exc (Exn FileNotFoundError demo_ipsw).
Proof.
  intros w.
  destruct (download_file demo_env (demo_firmware "PKdata") "iPhone7,1/12.0"
              demo_session w) as [r w'] eqn:Hrun.
  assert (Hr : exists e, r = Exc e).
  { apply (f_equal fst) in Hrun. simpl in Hrun. rewrite <- Hrun.
    vm_compute. eexists. reflexivity. }
  destruct Hr as [e ->].
  assert (Hfile : demo_ipsw ∉ dirs w) by by_evaluation.
  destruct (download_file_raises_only_after_complete_transfer demo_env
              (demo_firmware "PKdata") "iPhone7,1/12.0" demo_session
              w w' e Hfile Hrun) as [-> _].
  reflexivity.
Defined.

Lemma put_metadata_writes_only_on_ok_witness :
  let w := demo_world {[ demo_ledger := "[]"; demo_ipsw := "PKdata" ]} in
  files (snd (put_metadata demo_env demo_ledger "fw" demo_callback w)) !! demo_ipsw
  = Some "PKdata".
Proof.
  intros w.
  destruct (put_metadata demo_env demo_ledger "fw" demo_callback w)
    as [r w'] eqn:Hrun.
  destruct (put_metadata_writes_only_on_ok demo_env demo_ledger "fw" demo_callback
              w w' r demo_callback_keeps_files Hrun) as [Hothers _].
  simpl. rewrite (Hothers demo_ipsw); [reflexivity | discriminate].
Defined.

Lemma put_metadata_appends_witness :
  let old := [("fw", PList [PStr "11.4"]); ("owner", PStr "lab")] in
  let new := [("fw", PList [PStr "11.4"; PStr "12.0"]); ("owner", PStr "lab");
              ("updated_at", PStr "T0")] in
  let w := demo_world {[ demo_ledger := demo_json_dumps (PDict old) ]} in
  put_metadata demo_env demo_ledger "fw" demo_callback w
  = (Val (Ok tt),
     World {[ demo_ledger := demo_json_dumps (PDict new) ]} demo_dirs [] 1).
Proof.
  intros old new w.
  assert (Hfile : files w !! demo_ledger = Some (demo_json_dumps (PDict old)))
    by reflexivity.
  change demo_callback with (fun acc (w0 : world) => (or_empty_plus acc [PStr "12.0"], w0)).
  rewrite (put_metadata_appends demo_env demo_ledger "fw" [PStr "12.0"]
             [PStr "11.4"] w
             (demo_json_dumps (PDict old)) (demo_json_dumps (PDict old)) old
             Hfile eq_refl eq_refl (or_introl eq_refl)).
  vm_compute. reflexivity.
Defined.

Lemma put_metadata_append_type_error_witness :
  let old := [("fw", PList [PStr "11.4"]); ("owner", PStr "lab")] in
  let w := demo_world {[ demo_ledger := demo_json_dumps (PDict old) ]} in
  put_metadata demo_env demo_ledger "owner" demo_callback w
  = (Exc (Exn TypeError "unsupported operand type(s) for +"), w).
Proof.
  intros old w.
  assert (Hfile : files w !! demo_ledger = Some (demo_json_dumps (PDict old)))
    by reflexivity.
  apply (put_metadata_append_type_error demo_env demo_ledger "owner" [PStr "12.0"]
           w (demo_json_dumps (PDict old)) (demo_json_dumps (PDict old)) old
           Hfile eq_refl eq_refl eq_refl).
  intros l. discriminate.
Defined.

Lemma str_contains_trans_witness : str_contains "1.2" "fw: 11.2, 12.0" = true.
Proof. apply (str_contains_trans "1.2" "11.2" "fw: 11.2, 12.0"); reflexivity. Defined.

Lemma run_stops_after_fresh_download_witness :
  let firmware := demo_firmware "PKdata" in
  let w := demo_world {[ demo_ledger := "fw: 11.4" ]} in
  (exists r w',
      run demo_env firmware demo_session w = (Val r, w')
      /\ files w' = files w
      /\ requests w' = ["https://updates.example/iPhone7,1_12.0.ipsw"]
      /\ (r = None \/ exists msg, r = Some (Error msg)))
  /\ (exists r w',
        run demo_env firmware demo_session demo_first_run = (Val r, w')
        /\ files w' = {[ demo_ledger := "" ]}
        /\ requests w' = ["https://updates.example/iPhone7,1_12.0.ipsw"]
        /\ (r = None \/ exists msg, r = Some (Error msg))).
Proof.
  intros firmware w. split.
  - assert (Hsetup : setup_possible demo_env firmware w).
    { split; [left; by_evaluation|].
      split; [left; by_evaluation | left; by_evaluation]. }
    assert (Hnodir : destination demo_env firmware "iPhone7,1/12.0"
                     ∉ dirs (after_setup demo_env firmware w))
      by by_evaluation.
    destruct (run_stops_after_fresh_download demo_env firmware demo_session w
                "fw: 11.4" Hsetup eq_refl eq_refl eq_refl Hnodir)
      as (r & w' & Hrun & Hfiles & _ & _ & Hrequests & Hresult).
    exists r, w'. split; [exact Hrun|]. split; [exact Hfiles|].
    split; [exact Hrequests | exact Hresult].
  - assert (Hsetup : setup_possible demo_env firmware demo_first_run).
    { split; [right; split; [reflexivity | by_evaluation]|].
      split; [right; split; [reflexivity | by_evaluation]|].
      right. split; by_evaluation. }
    assert (Hnodir : destination demo_env firmware "iPhone7,1/12.0"
                     ∉ dirs (after_setup demo_env firmware demo_first_run))
      by by_evaluation.
    destruct (run_stops_after_fresh_download demo_env firmware demo_session
                demo_first_run "" Hsetup eq_refl eq_refl eq_refl Hnodir)
      as (r & w' & Hrun & Hfiles & _ & _ & Hrequests & Hresult).
    exists r, w'. split; [exact Hrun|]. split; [exact Hfiles|].
    split; [exact Hrequests | exact Hresult].
Defined.

Lemma biggest_dmg_first_of_largest_witness :
  biggest_dmg [ {| filename := "BuildManifest.plist"; file_size := 10 |};
                {| filename := "048-1.dmg"; file_size := 4096 |};
                {| filename := "048-2.dmg"; file_size := 4096 |};
                {| filename := "kernelcache"; file_size := 512 |} ]
  = Some {| filename := "048-1.dmg"; file_size := 4096 |}.
Proof.
  apply (biggest_dmg_first_of_largest
           [ {| filename := "BuildManifest.plist"; file_size := 10 |} ]
           [ {| filename := "048-2.dmg"; file_size := 4096 |};
             {| filename := "kernelcache"; file_size := 512 |} ]
           {| filename := "048-1.dmg"; file_size := 4096 |}).
  - intros x [<- | []]. simpl. lia.
  - intros x [<- | [<- | []]]; simpl; lia.
Defined.

Lemma extract_the_biggest_dmg_ok_removes_container_witness :
  exists w',
    extract_the_biggest_dmg demo_env_zip demo_ipsw "iPhone7,1/12.0"
      (demo_world {[ demo_ipsw := "PKdata" ]}) = (Val (Ok tt), w')
    /\ files w' !! demo_ipsw = None.
Proof.
  destruct (extract_the_biggest_dmg demo_env_zip demo_ipsw "iPhone7,1/12.0"
              (demo_world {[ demo_ipsw := "PKdata" ]})) as [r w'] eqn:Hrun.
  assert (Hr : r = Val (Ok tt)).
  { apply (f_equal fst) in Hrun. simpl in Hrun. rewrite <- Hrun.
    vm_compute. reflexivity. }
  subst r. exists w'. split; [reflexivity|].
  exact (extract_the_biggest_dmg_ok_removes_container demo_env_zip demo_ipsw
           "iPhone7,1/12.0" _ w' Hrun).
Defined.

Lemma extract_the_biggest_dmg_unusable_container_witness :
  let w := demo_world {[ demo_ipsw := "PK" ]} in
  exists e, extract_the_biggest_dmg demo_env demo_ipsw "iPhone7,1/12.0" w = (Exc e, w).
Proof.
  intros w.
  destruct (extract_the_biggest_dmg_unusable_container demo_env demo_ipsw
              "iPhone7,1/12.0" w) as (e & Hrun & _).
  - right. exists "PK". split; [reflexivity|]. right. reflexivity.
  - exists e. exact Hrun.
Defined.

Lemma delete_non_bundles_returns_new_paths_witness :
  let w := demo_world ∅ in
  exists w',
    delete_non_bundles demo_env "iPhone7,1/12.0"
      [ "iPhone7,1/12.0/System/Library/Carrier Bundles/iPhone/ATT_US.bundle" ] w
    = (Val (Ok [ "iPhone7,1/12.0/ATT_US.bundle" ]), w').
Proof.
  intros w.
  apply (delete_non_bundles_returns_new_paths demo_env "iPhone7,1/12.0"
           [ "iPhone7,1/12.0/System/Library/Carrier Bundles/iPhone/ATT_US.bundle" ]
           w).
  intros src dst w0. exists w0. reflexivity.
Defined.

Lemma tar_and_hash_bundles_records_witness :
  let w := demo_world {[ "iPhone7,1/12.0/ATT_US.tar" := "tar" ]} in
  fst (tar_and_hash_bundles demo_env [ "iPhone7,1/12.0/ATT_US.bundle" ] w)
  = Val (Ok [ PDict [("bundle_name", PStr "ATT_US");
                     ("tar_file", PStr "ATT_US.tar");
                     ("sha1", PStr "tar");
                     ("file_size", PInt 3);
                     ("created_at", PStr "T0")] ]).
Proof.
  intros w.
  destruct (tar_and_hash_bundles demo_env [ "iPhone7,1/12.0/ATT_US.bundle" ] w)
    as [r w'] eqn:Hrun.
  assert (Hr : exists v, r = Val v).
  { apply (f_equal fst) in Hrun. simpl in Hrun. rewrite <- Hrun.
    vm_compute. eexists. reflexivity. }
  destruct Hr as [v ->].
  destruct (tar_and_hash_bundles_records demo_env _ _ w' v Hrun)
    as (records & -> & Hpackaged & _).
  inversion Hpackaged as [|bundle rest w0 w1 w2 data records' Htar Hfile Hrest];
    subst.
  inversion Hrest; subst.
  inversion Htar; subst w1.
  vm_compute in Hfile. inversion Hfile; subst data.
  vm_compute. reflexivity.
Defined.

Lemma decrypt_dmg_aea_results_witness :
  let w := demo_world ∅ in
  decrypt_dmg_aea demo_env demo_ipsw "iPhone7,1/12.0/048-1.dmg.aea" "iPhone7,1/12.0" w
  = (Val (Error "No PEM file found."), w).
Proof.
  intros w.
  destruct (decrypt_dmg_aea demo_env demo_ipsw "iPhone7,1/12.0/048-1.dmg.aea"
              "iPhone7,1/12.0" w) as [r w'] eqn:Hrun.
  assert (Hshape : exists v, (r, w') = (Val v, w)).
  { rewrite <- Hrun. vm_compute. eexists. reflexivity. }
  destruct Hshape as [v Hv]. inversion Hv; subst r w'.
  destruct (decrypt_dmg_aea_results demo_env _ _ _ _ _ v Hrun)
    as [-> | [-> | [[stderr ->] | [stderr ->]]]];
    try reflexivity; vm_compute in Hrun; discriminate.
Defined.


Lemma main_schedules_iPhone10_4_twice_witness :
  count_tasks "iPhone10,4" "16.7" (tasks (main_creates demo_catalog)) = 2
  /\ 2 <= count_tasks "iPhone10,4" "16.6" (tasks (main_creates demo_catalog)).
Proof.
  split; [reflexivity|].
  apply (main_schedules_iPhone10_4_twice demo_catalog
           {| name := "iPhone 8"; resp_identifier := "iPhone10,4";
              firmwares := [ {| identifier := "iPhone10,4"; version := "16.7";
                                buildid := "20H19"; sha1sum := ""; md5sum := "";
                                filesize := 0; url := ""; releasedate := "";
                                uploaddate := ""; signed := true |};
                             {| identifier := "iPhone10,4"; version := "16.6";
                                buildid := "20G75"; sha1sum := ""; md5sum := "";
                                filesize := 0; url := ""; releasedate := "";
                                uploaddate := ""; signed := false |} ];
              boardconfig := "D201AP"; platform := "t8015";
              cpid := 32789; bdid := 2 |}
           {| identifier := "iPhone10,4"; version := "16.6";
              buildid := "20G75"; sha1sum := ""; md5sum := "";
              filesize := 0; url := ""; releasedate := "";
              uploaddate := ""; signed := false |}).
  - reflexivity.
  - right. left. reflexivity.
Defined.
